(** * StackTach exists-verifier: a shallow embedding of [verifier/dbverifier.py]

    The development follows the Python module top to bottom: the rows of
    the four tables the verifier reads and writes, the exception classes
    it raises, the finder queries, the matcher, the two-stage
    verification engine, and the notification step.

    Conventions.
    - A [DecimalField] timestamp is a count of microseconds ([Z]); a
      nullable column is an [option].  Python truthiness of such a value
      ([if d:]) is [truthy]: present and different from zero.
    - A raised exception is the [Raise] case of [result]; [try]/[except]
      is a match on it.
    - The verifier mutates the snapshot object in place and saves it; the
      marking functions return the mutated object together with the
      updated database.  The engine is given twice: with saves that
      succeed, and, in [Unreliable], with saves that may raise. *)

From stdpp Require Import base numbers list strings gmap fin_maps sorting.

Set Warnings "-register-all".

Local Open Scope string_scope.
Local Open Scope Z_scope.

(** ** Timestamps *)

(** A nullable [DecimalField(decimal_places=6)]: microseconds since the epoch. *)
Abbreviation decimal := (option Z).

(** A [datetime.datetime]: microseconds since the epoch. *)
Abbreviation datetime := Z.

Definition usec_per_sec : Z := 1000000.

(** Python's [bool(d)] on an optional [Decimal]: [None] and zero are false. *)
Definition truthy (d : decimal) : bool :=
  match d with
  | Some t => negb (t =? 0)
  | None => false
  end.

(** Python's [int(d)] on a [Decimal]: truncation toward zero, in seconds. *)
Definition int_seconds (t : Z) : Z := Z.quot t usec_per_sec.

(** [launched.microsecond]: the sub-second component, in [0, 999999]. *)
Definition microsecond (t : datetime) : Z := t `mod` usec_per_sec.

(** ** Exceptions *)

(** The values a [FieldMismatch] or a search dictionary carries. *)
Inductive value :=
| VDecimal (d : decimal)
| VText (s : option string).

(** Modelled from the spec: the classes [VerificationException], [NotFound],
    [AmbiguousResults] and [FieldMismatch] come from the [verifier] package,
    whose declarations are not part of this module.  [NotFound],
    [AmbiguousResults] and [FieldMismatch] are verification-level conditions
    (kinds of [VerificationException]); anything else that derives from
    [Exception] is [OtherException], identified by its class name. *)
Inductive exn :=
| VerificationException (reason : string)
| NotFound (object_type : string) (search_params : gmap string value)
| AmbiguousResults (object_type : string) (search_params : gmap string value)
| FieldMismatch (field_name : string) (expected actual : value)
| OtherException (class_name : string).

(** [isinstance(e, NotFound)] *)
Definition is_NotFound (e : exn) : bool :=
  match e with
  | NotFound _ _ => true
  | _ => false
  end.

(** [isinstance(e, VerificationException)] *)
Definition is_VerificationException (e : exn) : bool :=
  match e with
  | OtherException _ => false
  | _ => true
  end.

(** [e.__class__.__name__] *)
Definition class_name_of (e : exn) : string :=
  match e with
  | VerificationException _ => "VerificationException"
  | NotFound _ _ => "NotFound"
  | AmbiguousResults _ _ => "AmbiguousResults"
  | FieldMismatch _ _ _ => "FieldMismatch"
  | OtherException c => c
  end.

Inductive result (A : Type) :=
| Ok (a : A)
| Raise (e : exn).
Arguments Ok {A} a.
Arguments Raise {A} e.

Global Instance result_ret : MRet result := λ A a, Ok a.
Global Instance result_bind : MBind result := λ A B f r,
  match r with
  | Ok a => f a
  | Raise e => Raise e
  end.
Global Instance result_fmap : FMap result := λ A B f r,
  match r with
  | Ok a => Ok (f a)
  | Raise e => Raise e
  end.

(** ** Rows *)

(** The status constants of [models.InstanceExists]. *)
Inductive Status := PENDING | VERIFYING | VERIFIED | RECONCILED | FAILED.

Module InstanceUsage.
Record t := mk {
  instance : string;
  launched_at : decimal;
  instance_type_id : option string;
  tenant : option string;
  rax_options : option string;
  os_architecture : option string;
  os_version : option string;
  os_distro : option string
}.
End InstanceUsage.

Module InstanceDeletes.
Record t := mk {
  instance : string;
  launched_at : decimal;
  deleted_at : decimal
}.
End InstanceDeletes.

Module InstanceReconcile.
Record t := mk {
  instance : string;
  launched_at : decimal;
  deleted_at : decimal;
  instance_type_id : option string;
  tenant : option string;
  rax_options : option string;
  os_architecture : option string;
  os_version : option string;
  os_distro : option string
}.
End InstanceReconcile.

(** JSON documents, as [json.loads] returns them. *)
Inductive json :=
| JNull
| JBool (b : bool)
| JNum (n : Z)
| JStr (s : string)
| JList (l : list json)
| JDict (d : gmap string json).

(** [usage] and [delete] are the related rows as loaded together with
    the snapshot; [None] is a NULL foreign key.  A related row that is
    fetched on access, and a fetch that fails, are not modelled. *)
Module InstanceExists.
Record t := mk {
  id : Z;
  instance : string;
  launched_at : decimal;
  deleted_at : decimal;
  audit_period_ending : Z;
  instance_type_id : option string;
  tenant : option string;
  rax_options : option string;
  os_architecture : option string;
  os_version : option string;
  os_distro : option string;
  status : Status;
  fail_reason : option string;
  usage : option InstanceUsage.t;
  delete : option InstanceDeletes.t;
  raw : json
}.

Definition set_status (s : Status) (e : t) : t :=
  mk (id e) (instance e) (launched_at e) (deleted_at e)
     (audit_period_ending e) (instance_type_id e) (tenant e)
     (rax_options e) (os_architecture e) (os_version e) (os_distro e)
     s (fail_reason e) (usage e) (delete e) (raw e).

Definition set_fail_reason (r : option string) (e : t) : t :=
  mk (id e) (instance e) (launched_at e) (deleted_at e)
     (audit_period_ending e) (instance_type_id e) (tenant e)
     (rax_options e) (os_architecture e) (os_version e) (os_distro e)
     (status e) r (usage e) (delete e) (raw e).
End InstanceExists.

(** The verifier is duck-typed: the [launch] it compares against is an
    [InstanceUsage] row on the fast path and an [InstanceReconcile] row
    on the fallback, and likewise for [delete]. *)
Inductive launch_record :=
| LUsage (u : InstanceUsage.t)
| LReconcile (r : InstanceReconcile.t).

Inductive delete_record :=
| DDelete (d : InstanceDeletes.t)
| DReconcile (r : InstanceReconcile.t).

Module Launch.
Definition launched_at (l : launch_record) : decimal :=
  match l with
  | LUsage u => InstanceUsage.launched_at u
  | LReconcile r => InstanceReconcile.launched_at r
  end.
Definition instance_type_id (l : launch_record) : option string :=
  match l with
  | LUsage u => InstanceUsage.instance_type_id u
  | LReconcile r => InstanceReconcile.instance_type_id r
  end.
Definition tenant (l : launch_record) : option string :=
  match l with
  | LUsage u => InstanceUsage.tenant u
  | LReconcile r => InstanceReconcile.tenant r
  end.
Definition rax_options (l : launch_record) : option string :=
  match l with
  | LUsage u => InstanceUsage.rax_options u
  | LReconcile r => InstanceReconcile.rax_options r
  end.
Definition os_architecture (l : launch_record) : option string :=
  match l with
  | LUsage u => InstanceUsage.os_architecture u
  | LReconcile r => InstanceReconcile.os_architecture r
  end.
Definition os_version (l : launch_record) : option string :=
  match l with
  | LUsage u => InstanceUsage.os_version u
  | LReconcile r => InstanceReconcile.os_version r
  end.
Definition os_distro (l : launch_record) : option string :=
  match l with
  | LUsage u => InstanceUsage.os_distro u
  | LReconcile r => InstanceReconcile.os_distro r
  end.
End Launch.

Module Delete.
Definition launched_at (d : delete_record) : decimal :=
  match d with
  | DDelete x => InstanceDeletes.launched_at x
  | DReconcile r => InstanceReconcile.launched_at r
  end.
Definition deleted_at (d : delete_record) : decimal :=
  match d with
  | DDelete x => InstanceDeletes.deleted_at x
  | DReconcile r => InstanceReconcile.deleted_at r
  end.
End Delete.

(** ** The store *)

(** The relational store: the three tables the verifier searches, the
    table of snapshots it updates (by primary key), and, per searched
    table, whether evaluating a query on it fails (with the class name
    of the exception, e.g. a database error).  A write that fails is
    not part of this record: see [Unreliable] below. *)
Record Db := mkDb {
  usage_rows : list InstanceUsage.t;
  delete_rows : list InstanceDeletes.t;
  reconcile_rows : list InstanceReconcile.t;
  exists_rows : gmap Z InstanceExists.t;
  usage_fault : option string;
  delete_fault : option string;
  reconcile_fault : option string
}.

(** [Model.objects.filter(...)], evaluated. *)
Definition objects_filter {A} (fault : option string) (rows : list A)
    (p : A → bool) : result (list A) :=
  match fault with
  | Some c => Raise (OtherException c)
  | None => Ok (List.filter p rows)
  end.

(** The effect of an [exist.save()] that succeeds: the row of that
    primary key is replaced.  [Unreliable.save] is the call itself,
    which may raise instead. *)
Definition save (exist : InstanceExists.t) (db : Db) : Db :=
  mkDb (usage_rows db) (delete_rows db) (reconcile_rows db)
       (<[InstanceExists.id exist := exist]> (exists_rows db))
       (usage_fault db) (delete_fault db) (reconcile_fault db).

(** Modelled from the spec: [dt.dt_to_decimal] and [dt.dt_from_decimal]
    belong to [stacktach.datetime_to_decimal], which is not part of this
    module.  They convert between a decimal timestamp and a datetime;
    both sides are counts of microseconds here, so the conversions are
    the identity on present values.  A missing value has no datetime:
    the conversion fails with an exception that is not a verification
    condition. *)
Definition dt_to_decimal (d : datetime) : Z := d.

Definition dt_from_decimal (d : decimal) : result datetime :=
  match d with
  | Some t => Ok t
  | None => Raise (OtherException "TypeError")
  end.

(** The one-second window every finder uses:
    [start = launched - timedelta(microseconds=launched.microsecond)],
    [end = start + timedelta(microseconds=999999)], both ends included;
    a row whose [launched_at] is NULL is never in it. *)
Definition window_start (launched : datetime) : datetime :=
  launched - microsecond launched.

Definition window_end (launched : datetime) : datetime :=
  window_start launched + 999999.

Definition in_window (launched : datetime) (row_launched_at : decimal) : bool :=
  match row_launched_at with
  | Some t =>
      (dt_to_decimal (window_start launched) <=? t)
      && (t <=? dt_to_decimal (window_end launched))
  | None => false
  end.

(** [deleted_at__lte] *)
Definition deleted_at__lte (bound : Z) (row_deleted_at : decimal) : bool :=
  match row_deleted_at with
  | Some t => t <=? bound
  | None => false
  end.

Definition _find_launch (db : Db) (instance : string) (launched : datetime)
    : result (list InstanceUsage.t) :=
  objects_filter (usage_fault db) (usage_rows db)
    (λ u, String.eqb (InstanceUsage.instance u) instance
          && in_window launched (InstanceUsage.launched_at u)).

Definition _find_reconcile (db : Db) (instance : string) (launched : datetime)
    : result (list InstanceReconcile.t) :=
  objects_filter (reconcile_fault db) (reconcile_rows db)
    (λ r, String.eqb (InstanceReconcile.instance r) instance
          && in_window launched (InstanceReconcile.launched_at r)).

Definition _find_delete (db : Db) (instance : string) (launched : datetime)
    (deleted_max : option datetime) : result (list InstanceDeletes.t) :=
  objects_filter (delete_fault db) (delete_rows db)
    (λ d, String.eqb (InstanceDeletes.instance d) instance
          && in_window launched (InstanceDeletes.launched_at d)
          && match deleted_max with
             | Some m => deleted_at__lte (dt_to_decimal m) (InstanceDeletes.deleted_at d)
             | None => true
             end).

(** ** Marking *)

Definition _mark_exist_verified (exist : InstanceExists.t) (reconciled : bool)
    (reason : option string) (db : Db) : Db * InstanceExists.t :=
  let exist :=
    if negb reconciled then InstanceExists.set_status VERIFIED exist
    else
      let exist := InstanceExists.set_status RECONCILED exist in
      match reason with
      | Some r => InstanceExists.set_fail_reason (Some r) exist
      | None => exist
      end in
  (save exist db, exist).

(** [if reason:] is false for [None] and for the empty string. *)
Definition _mark_exist_failed (exist : InstanceExists.t)
    (reason : option string) (db : Db) : Db * InstanceExists.t :=
  let exist := InstanceExists.set_status FAILED exist in
  let exist :=
    match reason with
    | Some r => if String.eqb r "" then exist
                else InstanceExists.set_fail_reason (Some r) exist
    | None => exist
    end in
  (save exist db, exist).

(** ** Matcher *)

Definition _verify_date_field (d1 d2 : decimal) (same_second : bool) : bool :=
  if truthy d1 && truthy d2 then
    match d1, d2 with
    | Some a, Some b =>
        if a =? b then true
        else if same_second && (int_seconds a =? int_seconds b) then true
        else false
    | _, _ => false
    end
  else false.

(** [a != b] on nullable text columns. *)
Definition text_ne (a b : option string) : bool :=
  negb (bool_decide (a = b)).

Definition _verify_field_mismatch (exists_ : InstanceExists.t)
    (launch : launch_record) : result unit :=
  if negb (_verify_date_field (Launch.launched_at launch)
             (InstanceExists.launched_at exists_) true) then
    Raise (FieldMismatch "launched_at"
             (VDecimal (InstanceExists.launched_at exists_))
             (VDecimal (Launch.launched_at launch)))
  else if text_ne (Launch.instance_type_id launch)
            (InstanceExists.instance_type_id exists_) then
    Raise (FieldMismatch "instance_type_id"
             (VText (InstanceExists.instance_type_id exists_))
             (VText (Launch.instance_type_id launch)))
  else if text_ne (Launch.tenant launch) (InstanceExists.tenant exists_) then
    Raise (FieldMismatch "tenant"
             (VText (InstanceExists.tenant exists_))
             (VText (Launch.tenant launch)))
  else if text_ne (Launch.rax_options launch)
            (InstanceExists.rax_options exists_) then
    Raise (FieldMismatch "rax_options"
             (VText (InstanceExists.rax_options exists_))
             (VText (Launch.rax_options launch)))
  else if text_ne (Launch.os_architecture launch)
            (InstanceExists.os_architecture exists_) then
    Raise (FieldMismatch "os_architecture"
             (VText (InstanceExists.os_architecture exists_))
             (VText (Launch.os_architecture launch)))
  else if text_ne (Launch.os_version launch)
            (InstanceExists.os_version exists_) then
    Raise (FieldMismatch "os_version"
             (VText (InstanceExists.os_version exists_))
             (VText (Launch.os_version launch)))
  else if text_ne (Launch.os_distro launch)
            (InstanceExists.os_distro exists_) then
    Raise (FieldMismatch "os_distro"
             (VText (InstanceExists.os_distro exists_))
             (VText (Launch.os_distro launch)))
  else Ok ().

(** ** Verification engine *)

(** [{'instance': exist.instance, 'launched_at': exist.launched_at}] *)
Definition launch_query (exist : InstanceExists.t) : gmap string value :=
  {[ "instance" := VText (Some (InstanceExists.instance exist));
     "launched_at" := VDecimal (InstanceExists.launched_at exist) ]}.

(** [{'instance': exist.instance}] *)
Definition instance_query (exist : InstanceExists.t) : gmap string value :=
  {[ "instance" := VText (Some (InstanceExists.instance exist)) ]}.

(** [launches[0]] *)
Definition first_row {A} (rows : list A) : result A :=
  match rows with
  | r :: _ => Ok r
  | [] => Raise (OtherException "IndexError")
  end.

Definition _verify_for_launch (db : Db) (exist : InstanceExists.t)
    (launch : option launch_record) (launch_type : string) : result unit :=
  launch ←
    match launch, InstanceExists.usage exist with
    | Some l, _ => Ok l
    | None, Some u => Ok (LUsage u)
    | None, None =>
        known ← objects_filter (usage_fault db) (usage_rows db)
                  (λ u, String.eqb (InstanceUsage.instance u)
                          (InstanceExists.instance exist));
        if (0 <? length known)%nat then
          launched ← dt_from_decimal (InstanceExists.launched_at exist);
          launches ← _find_launch db (InstanceExists.instance exist) launched;
          let count := length launches in
          let query := launch_query exist in
          if (1 <? count)%nat then Raise (AmbiguousResults launch_type query)
          else if (count =? 0)%nat then Raise (NotFound launch_type query)
          else LUsage <$> first_row launches
        else Raise (NotFound launch_type (instance_query exist))
    end;
  _verify_field_mismatch exist launch.

Definition _verify_for_delete (db : Db) (exist : InstanceExists.t)
    (delete : option delete_record) (delete_type : string) : result unit :=
  delete ←
    match delete, InstanceExists.delete exist with
    | Some d, _ => Ok (Some d)
    | None, Some d => Ok (Some (DDelete d))
    | None, None =>
        if truthy (InstanceExists.deleted_at exist) then
          launched ← dt_from_decimal (InstanceExists.launched_at exist);
          deletes ← _find_delete db (InstanceExists.instance exist) launched None;
          if (length deletes =? 1)%nat then
            (λ d, Some (DDelete d)) <$> first_row deletes
          else Raise (NotFound delete_type (launch_query exist))
        else
          launched_at ← dt_from_decimal (InstanceExists.launched_at exist);
          deleted_at_max ←
            dt_from_decimal (Some (InstanceExists.audit_period_ending exist));
          deletes ← _find_delete db (InstanceExists.instance exist) launched_at
                      (Some deleted_at_max);
          if (0 <? length deletes)%nat then
            Raise (VerificationException
                     ("Found " +:+ delete_type +:+ "s for non-delete exist"))
          else Ok None
    end;
  match delete with
  | Some delete =>
      if negb (_verify_date_field (Delete.launched_at delete)
                 (InstanceExists.launched_at exist) true) then
        Raise (FieldMismatch "launched_at"
                 (VDecimal (InstanceExists.launched_at exist))
                 (VDecimal (Delete.launched_at delete)))
      else if negb (_verify_date_field (Delete.deleted_at delete)
                      (InstanceExists.deleted_at exist) true) then
        Raise (FieldMismatch "deleted_at"
                 (VDecimal (InstanceExists.deleted_at exist))
                 (VDecimal (Delete.deleted_at delete)))
      else Ok ()
  | None => Ok ()
  end.

(** The second argument (the original exception) is not used by the body. *)
Definition _verify_with_reconciled_data (db : Db) (exist : InstanceExists.t)
    (ex : exn) : result unit :=
  (if negb (truthy (InstanceExists.launched_at exist)) then
     Raise (VerificationException "Exists without a launched_at")
   else Ok ());;
  reconcile ←
    (known ← objects_filter (reconcile_fault db) (reconcile_rows db)
               (λ r, String.eqb (InstanceReconcile.instance r)
                       (InstanceExists.instance exist));
     if (0 <? length known)%nat then
       launched ← dt_from_decimal (InstanceExists.launched_at exist);
       recs ← _find_reconcile db (InstanceExists.instance exist) launched;
       let search_query := launch_query exist in
       let count := length recs in
       if (1 <? count)%nat then
         Raise (AmbiguousResults "InstanceReconcile" search_query)
       else if (count =? 0)%nat then
         Raise (NotFound "InstanceReconcile" search_query)
       else first_row recs
     else Raise (NotFound "InstanceReconcile" (instance_query exist)));
  _verify_for_launch db exist (Some (LReconcile reconcile)) "InstanceReconcile";;
  _verify_for_delete db exist (Some (DReconcile reconcile)) "InstanceReconcile".

(** Computations that read and write the store and may raise. *)
Definition M (A : Type) : Type := Db → Db * result A.

Global Instance M_ret : MRet M := λ A a db, (db, Ok a).
Global Instance M_bind : MBind M := λ A B f m db,
  match m db with
  | (db', Ok a) => f a db'
  | (db', Raise e) => (db', Raise e)
  end.

(** A verification step: reads the store. *)
Definition check {A} (f : Db → result A) : M A := λ db, (db, f db).

(** A marking step whose save succeeds: mutates the snapshot and
    stores it ([Unreliable] has the steps whose save may raise). *)
Definition mark (f : Db → Db * InstanceExists.t) : M InstanceExists.t :=
  λ db, let '(db', exist') := f db in (db', Ok exist').

(** [try: body except ...: handler]; the handler receives whatever the
    body raised and is itself free to raise. *)
Definition try_except {A} (body : M A) (handler : exn → M A) : M A := λ db,
  match body db with
  | (db', Ok a) => (db', Ok a)
  | (db', Raise e) => handler e db'
  end.

Section Engine.

(** [str(e)]: the message of an exception.  The classes are declared
    outside this module, so the rendering is a parameter. *)
Variable exn_str : exn → string.

(** Returns [verified] and the (mutated) snapshot.  [LOG.exception] has
    no effect on the store and is left out. *)
Definition _attempt_reconciled_verify (exist : InstanceExists.t) (orig_e : exn)
    : M (bool * InstanceExists.t) :=
  try_except
    (check (λ db, _verify_with_reconciled_data db exist orig_e);;
     exist' ← mark (_mark_exist_verified exist false None);
     mret (true, exist'))
    (λ rec_e,
       if is_NotFound rec_e then
         exist' ← mark (_mark_exist_failed exist (Some (exn_str orig_e)));
         mret (false, exist')
       else if is_VerificationException rec_e then
         exist' ← mark (_mark_exist_failed exist (Some (exn_str rec_e)));
         mret (false, exist')
       else
         exist' ← mark (_mark_exist_failed exist (Some (class_name_of rec_e)));
         mret (false, exist')).

(** The body of the [try] block of [_verify], up to the marking. *)
Definition fast_path_checks (db : Db) (exist : InstanceExists.t) : result unit :=
  (if negb (truthy (InstanceExists.launched_at exist)) then
     Raise (VerificationException "Exists without a launched_at")
   else Ok ());;
  _verify_for_launch db exist None "InstanceUsage";;
  _verify_for_delete db exist None "InstanceDelete".

Definition _verify (exist : InstanceExists.t) : M (bool * InstanceExists.t) :=
  try_except
    (check (λ db, fast_path_checks db exist);;
     exist' ← mark (_mark_exist_verified exist false None);
     mret (true, exist'))
    (λ e,
       if is_VerificationException e then
         _attempt_reconciled_verify exist e
       else
         exist' ← mark (_mark_exist_failed exist (Some (class_name_of e)));
         mret (false, exist')).

End Engine.

(** ** Notification *)

(** A [kombu.entity.Exchange], as the keyword arguments it was built with. *)
Module Exchange.
Record t := mk {
  name : string;
  type : string;
  exclusive : bool;
  auto_delete : bool;
  durable : bool
}.
End Exchange.

(** One call of [_send_notification] that went through: the exchange it
    declared on the channel ([maybe_declare]), and the routing key and
    message it passed to [producer.publish]. *)
Record publication := mkPublication {
  pub_exchange : Exchange.t;
  pub_routing_key : json;
  pub_message : json
}.

(** The broker connection, as the sequence of notifications sent on it;
    a broker that refuses a message is not modelled. *)
Abbreviation connection := (list publication).

Definition _send_notification (message routing_key : json) (conn : connection)
    (exchange : Exchange.t) : connection :=
  conn ++ [mkPublication exchange routing_key message].

(** [j[i]] on a parsed JSON document: a list is indexed, a string
    yields its i-th character, an object has no integer key, and
    nothing else can be subscripted. *)
Definition json_index (j : json) (i : nat) : result json :=
  match j with
  | JList l =>
      match l !! i with
      | Some x => Ok x
      | None => Raise (OtherException "IndexError")
      end
  | JStr s =>
      match String.get i s with
      | Some c => Ok (JStr (String c EmptyString))
      | None => Raise (OtherException "IndexError")
      end
  | JDict _ => Raise (OtherException "KeyError")
  | _ => Raise (OtherException "TypeError")
  end.

(** The target of [j[key] = v] and [j[key]] must be a dictionary. *)
Definition as_dict (j : json) : result (gmap string json) :=
  match j with
  | JDict d => Ok d
  | _ => Raise (OtherException "TypeError")
  end.

(** [d[key]] *)
Definition dict_get (d : gmap string json) (key : string) : result json :=
  match d !! key with
  | Some v => Ok v
  | None => Raise (OtherException "KeyError")
  end.

(** [for key in routing_keys: _send_notification(message, key, ...)] *)
Fixpoint send_each (message : json) (keys : list string) (conn : connection)
    (exchange : Exchange.t) : connection :=
  match keys with
  | [] => conn
  | key :: keys =>
      send_each message keys
        (_send_notification message (JStr key) conn exchange) exchange
  end.

(** [exist.raw.json] is kept in parsed form ([json.loads] is the
    identity on it); [uuid4] is the string [str(uuid.uuid4())] drawn for
    this call. *)
Definition send_verified_notification (exist : InstanceExists.t)
    (conn : connection) (exchange : Exchange.t)
    (routing_keys : option (list string)) (uuid4 : string)
    : connection * result unit :=
  let json_body := InstanceExists.raw exist in
  let sent :=
    body ← json_index json_body 1 ≫= as_dict;
    let body := <["event_type" := JStr "compute.instance.exists.verified.old"]> body in
    message_id ← dict_get body "message_id";
    let body := <["original_message_id" := message_id]> body in
    let body := <["message_id" := JStr uuid4]> body in
    match routing_keys with
    | None =>
        routing_key ← json_index json_body 0;
        Ok (_send_notification (JDict body) routing_key conn exchange)
    | Some keys => Ok (send_each (JDict body) keys conn exchange)
    end in
  match sent with
  | Ok conn' => (conn', Ok ())
  | Raise e => (conn, Raise e)
  end.

Definition _create_exchange (name type : string)
    (exclusive auto_delete durable : bool) : Exchange.t :=
  Exchange.mk name type auto_delete exclusive durable.

(** The defaults of [_create_exchange]'s keyword parameters. *)
Definition default_exclusive : bool := false.
Definition default_auto_delete : bool := false.

(** [config['rabbit']] *)
Record rabbit_config := mkRabbit {
  exchange_name : string;
  durable_queue : bool;
  routing_keys : option (list string)
}.

Module Verifier.

(** The exchange [run] builds when notifications are enabled. *)
Definition run_exchange (rabbit : rabbit_config) : Exchange.t :=
  _create_exchange (exchange_name rabbit) "topic"
    default_exclusive default_auto_delete (durable_queue rabbit).

(** The exchange [run_once] builds when notifications are enabled. *)
Definition run_once_exchange (rabbit : rabbit_config) : Exchange.t :=
  _create_exchange (exchange_name rabbit) "topic"
    default_exclusive default_auto_delete (durable_queue rabbit).

(** The completion callback both [run] and [run_once] install. *)
Definition callback (rabbit : rabbit_config) (exchange : Exchange.t)
    (outcome : bool * InstanceExists.t) (conn : connection) (uuid4 : string)
    : connection * result unit :=
  let '(verified, exist') := outcome in
  if verified then
    send_verified_notification exist' conn exchange (routing_keys rabbit) uuid4
  else (conn, Ok ()).

End Verifier.

(** ** The matcher's contract, as the design states it *)

(** One comparison of the matcher: the field's name, whether the two
    sides agree, and the snapshot's and the candidate's values. *)
Record comparison := mkComparison {
  cmp_field : string;
  cmp_agree : bool;
  cmp_expected : value;
  cmp_actual : value
}.

(** The launched-at comparison as the design words it: the two values
    are equal, or they are equal once truncated to whole seconds. *)
Definition same_second_as_stated (candidate snapshot : decimal) : bool :=
  match candidate, snapshot with
  | Some a, Some b => (a =? b) || (Z.quot a 1000000 =? Z.quot b 1000000)
  | None, None => true
  | _, _ => false
  end.

(** The same comparison with absence made explicit: both values are
    present and non-zero, and they are equal or equal once truncated to
    whole seconds. *)
Definition same_second_present (candidate snapshot : decimal) : bool :=
  match candidate, snapshot with
  | Some a, Some b =>
      negb (a =? 0) && negb (b =? 0)
      && ((a =? b) || (Z.quot a 1000000 =? Z.quot b 1000000))
  | _, _ => false
  end.

(** The comparisons in their fixed order: launched-at (under the given
    comparison), instance-type identifier, tenant, provider options,
    OS architecture, OS version, OS distro. *)
Definition field_scan (launched_at_agrees : decimal → decimal → bool)
    (exists_ : InstanceExists.t) (launch : launch_record) : list comparison :=
  let text name (candidate snapshot : option string) :=
    mkComparison name (bool_decide (candidate = snapshot))
      (VText snapshot) (VText candidate) in
  [ mkComparison "launched_at"
      (launched_at_agrees (Launch.launched_at launch)
         (InstanceExists.launched_at exists_))
      (VDecimal (InstanceExists.launched_at exists_))
      (VDecimal (Launch.launched_at launch));
    text "instance_type_id" (Launch.instance_type_id launch)
      (InstanceExists.instance_type_id exists_);
    text "tenant" (Launch.tenant launch) (InstanceExists.tenant exists_);
    text "rax_options" (Launch.rax_options launch)
      (InstanceExists.rax_options exists_);
    text "os_architecture" (Launch.os_architecture launch)
      (InstanceExists.os_architecture exists_);
    text "os_version" (Launch.os_version launch)
      (InstanceExists.os_version exists_);
    text "os_distro" (Launch.os_distro launch)
      (InstanceExists.os_distro exists_) ].

(** First mismatch wins: the result is the first disagreeing comparison
    of the list, alone; later comparisons do not contribute. *)
Fixpoint first_mismatch (cs : list comparison) : result unit :=
  match cs with
  | [] => Ok ()
  | c :: cs =>
      if cmp_agree c then first_mismatch cs
      else Raise (FieldMismatch (cmp_field c) (cmp_expected c) (cmp_actual c))
  end.

(** ** Outcomes *)

(** The statuses a snapshot may rest in. *)
Definition terminal (s : Status) : Prop :=
  s = VERIFIED ∨ s = RECONCILED ∨ s = FAILED.

(** The store holds exactly this version of the snapshot. *)
Definition persisted (db : Db) (exist : InstanceExists.t) : Prop :=
  exists_rows db !! InstanceExists.id exist = Some exist.

(** The snapshot after a marking: only status and fail reason change. *)
Definition marked (s : Status) (reason : option string)
    (exist : InstanceExists.t) : InstanceExists.t :=
  InstanceExists.set_fail_reason reason (InstanceExists.set_status s exist).

(** A delete row that contradicts a snapshot claiming no deletion: it
    is of the same instance, its launch time lies in the second that
    encloses the snapshot's launch time (from that second's start to
    999999 microseconds later, both included), and its deletion time is
    at or before the end of the snapshot's audit period. *)
Definition contradicting_delete (exist : InstanceExists.t)
    (launched : Z) (d : InstanceDeletes.t) : Prop :=
  InstanceDeletes.instance d = InstanceExists.instance exist
  ∧ (∃ t, InstanceDeletes.launched_at d = Some t
          ∧ 1000000 * (launched `div` 1000000) ≤ t
          ∧ t ≤ 1000000 * (launched `div` 1000000) + 999999)
  ∧ (∃ t, InstanceDeletes.deleted_at d = Some t
          ∧ t ≤ InstanceExists.audit_period_ending exist).

(** The three fields the notification step overwrites. *)
Definition rewritten_keys : list string :=
  ["event_type"; "original_message_id"; "message_id"].

(** ** Selecting snapshots *)

Global Instance Status_eq_dec : EqDecision Status.
Proof. solve_decision. Defined.

(** The order of [order_by('id')] on rows paired with their primary key. *)
Definition by_id (a b : Z * InstanceExists.t) : Prop := a.1 ≤ b.1.

Global Instance by_id_dec (a b : Z * InstanceExists.t) : Decision (by_id a b).
Proof. unfold by_id. apply _. Defined.

(** [audit_period_ending__lte] and [status], each present only when the
    argument is given: a datetime and a status constant are both true
    values whenever they are not [None]. *)
Definition list_exists_params (ending_max : option datetime)
    (status : option Status) (row : Z * InstanceExists.t) : bool :=
  match ending_max with
  | Some m => InstanceExists.audit_period_ending row.2 <=? dt_to_decimal m
  | None => true
  end
  && match status with
     | Some s => bool_decide (InstanceExists.status row.2 = s)
     | None => true
     end.

Definition _list_exists (db : Db) (ending_max : option datetime)
    (status : option Status) : list InstanceExists.t :=
  snd <$> merge_sort by_id
            (List.filter (list_exists_params ending_max status)
               (map_to_list (exists_rows db))).

(** Every stored snapshot carries its primary key as [id]. *)
Definition well_keyed (db : Db) : Prop :=
  ∀ i exist, exists_rows db !! i = Some exist → InstanceExists.id exist = i.

(** ** Dictionary comparisons *)

Section SimpleFields.

Context {V : Type} `{EqDecision V}.

(** [d.get(field)]: [None] for a missing key as for a stored [None]. *)
Definition dict_get_default (d : gmap string (option V)) (field : string)
    : option V :=
  match d !! field with
  | Some v => v
  | None => None
  end.

(** [d[field]] *)
Definition dict_subscript (d : gmap string (option V)) (field : string)
    : result (option V) :=
  match d !! field with
  | Some v => Ok v
  | None => Raise (OtherException "KeyError")
  end.

(** [if not field2: field2 = field1]: [None] and the empty string alike. *)
Definition default_field (field1 : string) (field2 : option string) : string :=
  match field2 with
  | Some f => if String.eqb f "" then field1 else f
  | None => field1
  end.

Definition _has_field (d1 d2 : gmap string (option V)) (field1 : string)
    (field2 : option string) : bool :=
  let field2 := default_field field1 field2 in
  bool_decide (dict_get_default d1 field1 ≠ None)
  && bool_decide (dict_get_default d2 field2 ≠ None).

Definition _verify_simple_field (d1 d2 : gmap string (option V))
    (field1 : string) (field2 : option string) : result bool :=
  let field2 := default_field field1 field2 in
  if negb (_has_field d1 d2 field1 (Some field2)) then Ok false
  else
    a ← dict_subscript d1 field1;
    b ← dict_subscript d2 field2;
    if bool_decide (a ≠ b) then Ok false else Ok true.

End SimpleFields.

(** ** Draining the worker pool *)

(** A result handle of the pool, as [clean_results] observes it:
    [ready()] holds of [Ready]; [successful()] holds when the task
    returned, and [get()] is then its value; a task that raised is
    ready and not successful. *)
Inductive async_result :=
| NotReady
| Ready (outcome : result (bool * InstanceExists.t)).

(** [result.ready()] *)
Definition ready (r : async_result) : bool :=
  match r with
  | Ready _ => true
  | NotReady => false
  end.

(** [result.successful()] *)
Definition successful (r : async_result) : bool :=
  match r with
  | Ready (Ok _) => true
  | _ => false
  end.

(** The snapshot of a task that returned [verified = False], if [r] is
    such a task. *)
Definition unverified (r : async_result) : list InstanceExists.t :=
  match r with
  | Ready (Ok (false, exists_)) => [exists_]
  | _ => []
  end.

(** The attributes of a [Verifier] that draining and escalation use.
    The reconciler is the sequence of snapshots passed to its
    [failed_validation]; it is [None] when [_load_reconciler] returned
    nothing. *)
Record verifier := mkVerifier {
  reconcile : bool;
  results : list async_result;
  failed : list InstanceExists.t;
  reconciler : option (list InstanceExists.t)
}.

(** The [for result in self.results] loop of [clean_results], with its
    four accumulators. *)
Fixpoint clean_results_loop (reconcile : bool) (rs : list async_result)
    (pending : list async_result) (finished successful : nat)
    (failed : list InstanceExists.t)
    : list async_result * nat * nat * list InstanceExists.t :=
  match rs with
  | [] => (pending, finished, successful, failed)
  | r :: rs =>
      match r with
      | Ready outcome =>
          match outcome with
          | Ok (verified, exists_) =>
              clean_results_loop reconcile rs pending (S finished)
                (S successful)
                (if reconcile && negb verified then failed ++ [exists_]
                 else failed)
          | Raise _ =>
              clean_results_loop reconcile rs pending (S finished)
                successful failed
          end
      | NotReady =>
          clean_results_loop reconcile rs (pending ++ [r]) finished
            successful failed
      end
  end.

(** Returns the updated verifier and [(len(self.results), successful,
    errored)]. *)
Definition clean_results (self : verifier) : verifier * (nat * nat * nat) :=
  let '(pending, finished, successful, failed') :=
    clean_results_loop (reconcile self) (results self) [] 0%nat 0%nat
      (failed self) in
  (mkVerifier (reconcile self) pending failed' (reconciler self),
   (length pending, successful, (finished - successful)%nat)).

(** [for failed_exist in self.failed:
       self.reconciler.failed_validation(failed_exist)]:
    calling a method of a missing reconciler raises. *)
Fixpoint failed_validation_each (rec : option (list InstanceExists.t))
    (failed : list InstanceExists.t) : result (option (list InstanceExists.t)) :=
  match failed with
  | [] => Ok rec
  | failed_exist :: failed =>
      match rec with
      | Some calls =>
          failed_validation_each (Some (calls ++ [failed_exist])%list) failed
      | None => Raise (OtherException "AttributeError")
      end
  end.

Definition reconcile_failed (self : verifier) : result verifier :=
  rec ← failed_validation_each (reconciler self) (failed self);
  Ok (mkVerifier (reconcile self) (results self) [] rec).

(** ** The engine on a store whose writes may fail *)

Module Unreliable.

(** The store together with the fate of the coming writes: the n-th
    [exist.save()] of a run raises an exception of the class named by
    the n-th entry when that entry is [Some]; a [None] entry, and every
    write past the end of the list, succeeds. *)
Record World := mkWorld {
  store : Db;
  writes : list (option string)
}.

(** [exist.save()] *)
Definition save (exist : InstanceExists.t) (w : World) : World * result unit :=
  match writes w with
  | Some class_name :: rest =>
      (mkWorld (store w) rest, Raise (OtherException class_name))
  | None :: rest => (mkWorld (save exist (store w)) rest, Ok ())
  | [] => (mkWorld (save exist (store w)) [], Ok ())
  end.

(** The marking functions return the snapshot as mutated in memory, also
    when the save raises: the assignments come first. *)
Definition _mark_exist_verified (exist : InstanceExists.t) (reconciled : bool)
    (reason : option string) (w : World)
    : World * InstanceExists.t * result unit :=
  let exist :=
    if negb reconciled then InstanceExists.set_status VERIFIED exist
    else
      let exist := InstanceExists.set_status RECONCILED exist in
      match reason with
      | Some r => InstanceExists.set_fail_reason (Some r) exist
      | None => exist
      end in
  let '(w', saved) := save exist w in
  (w', exist, saved).

Definition _mark_exist_failed (exist : InstanceExists.t)
    (reason : option string) (w : World)
    : World * InstanceExists.t * result unit :=
  let exist := InstanceExists.set_status FAILED exist in
  let exist :=
    match reason with
    | Some r => if String.eqb r "" then exist
                else InstanceExists.set_fail_reason (Some r) exist
    | None => exist
    end in
  let '(w', saved) := save exist w in
  (w', exist, saved).

Section Engine.

Variable exn_str : exn → string.

(** [verified] is assigned before the marking, so an exception raised by
    the save inside the [try] reaches the handlers with [verified]
    already true; an exception raised inside a handler propagates. *)
Definition _attempt_reconciled_verify (exist : InstanceExists.t) (orig_e : exn)
    (w : World) : World * InstanceExists.t * result bool :=
  let '(w1, snap1, verified, tried) :=
    match _verify_with_reconciled_data (store w) exist orig_e with
    | Ok _ =>
        let '(w', exist', saved) := _mark_exist_verified exist false None w in
        (w', exist', true, saved)
    | Raise rec_e => (w, exist, false, Raise rec_e)
    end in
  match tried with
  | Ok _ => (w1, snap1, Ok verified)
  | Raise rec_e =>
      let reason :=
        if is_NotFound rec_e then exn_str orig_e
        else if is_VerificationException rec_e then exn_str rec_e
        else class_name_of rec_e in
      let '(w2, snap2, saved) := _mark_exist_failed snap1 (Some reason) w1 in
      match saved with
      | Ok _ => (w2, snap2, Ok verified)
      | Raise e => (w2, snap2, Raise e)
      end
  end.

Definition _verify (exist : InstanceExists.t) (w : World)
    : World * result (bool * InstanceExists.t) :=
  let '(w1, snap1, verified, tried) :=
    match fast_path_checks (store w) exist with
    | Ok _ =>
        let '(w', exist', saved) := _mark_exist_verified exist false None w in
        (w', exist', true, saved)
    | Raise e => (w, exist, false, Raise e)
    end in
  match tried with
  | Ok _ => (w1, Ok (verified, snap1))
  | Raise e =>
      if is_VerificationException e then
        let '(w2, snap2, attempted) :=
          _attempt_reconciled_verify snap1 e w1 in
        match attempted with
        | Ok verified => (w2, Ok (verified, snap2))
        | Raise e' => (w2, Raise e')
        end
      else
        let '(w2, snap2, saved) :=
          _mark_exist_failed snap1 (Some (class_name_of e)) w1 in
        match saved with
        | Ok _ => (w2, Ok (verified, snap2))
        | Raise e' => (w2, Raise e')
        end
  end.

End Engine.

End Unreliable.

(** No write of the run is scripted to fail. *)
Definition writes_succeed (w : Unreliable.World) : Prop :=
  ∀ class_name, ¬ In (Some class_name) (Unreliable.writes w).

(** ** Sample data *)

Module Sample.

(** 2013-05-31 11:33:20.123456 UTC, in microseconds. *)
Definition T : Z := 1370000000123456.

(** Ten minutes after the launch. *)
Definition D : Z := T + 600 * usec_per_sec.

(** The end of the audit period, one hour after the launch. *)
Definition A : Z := T + 3600 * usec_per_sec.

Definition usage_row (tenant : string) : InstanceUsage.t :=
  InstanceUsage.mk "I1" (Some T) (Some "2") (Some tenant) (Some "opts")
    (Some "x64") (Some "12.04") (Some "ubuntu").

Definition delete_row (deleted_at : Z) : InstanceDeletes.t :=
  InstanceDeletes.mk "I1" (Some T) (Some deleted_at).

Definition reconcile_row (deleted_at : decimal) : InstanceReconcile.t :=
  InstanceReconcile.mk "I1" (Some T) deleted_at (Some "2") (Some "tenantA")
    (Some "opts") (Some "x64") (Some "12.04") (Some "ubuntu").

Definition raw_message : json :=
  JList [ JStr "monitor.info";
          JDict {[ "event_type" := JStr "compute.instance.exists";
                   "message_id" := JStr "8f1c";
                   "payload" := JDict {[ "instance_id" := JStr "I1" ]} ]} ].

(** A snapshot of instance I1 in status VERIFYING, with no record
    attached; [deleted_at] is the only varying attribute. *)
Definition snapshot (deleted_at : decimal) : InstanceExists.t :=
  InstanceExists.mk 7 "I1" (Some T) deleted_at A (Some "2") (Some "tenantA")
    (Some "opts") (Some "x64") (Some "12.04") (Some "ubuntu")
    VERIFYING None None None raw_message.

Definition db (usages : list InstanceUsage.t) (deletes : list InstanceDeletes.t)
    (reconciles : list InstanceReconcile.t) : Db :=
  mkDb usages deletes reconciles {[ 7 := snapshot None ]} None None None.

(** A rendering of exception messages, for the examples. *)
Definition message (e : exn) : string :=
  match e with
  | VerificationException reason => reason
  | NotFound object_type _ => "Couldn't find " +:+ object_type
  | AmbiguousResults object_type _ => "Ambiguous results for " +:+ object_type
  | FieldMismatch field_name _ _ => "Unexpected value for " +:+ field_name
  | OtherException class_name => class_name
  end.

End Sample.

Example sample_fast_path_ok :
  _verify Sample.message (Sample.snapshot None)
    (Sample.db [Sample.usage_row "tenantA"] [] [])
  = (save (InstanceExists.set_status VERIFIED (Sample.snapshot None))
       (Sample.db [Sample.usage_row "tenantA"] [] []),
     Ok (true, InstanceExists.set_status VERIFIED (Sample.snapshot None))).
Proof. vm_compute. reflexivity. Qed.

Example sample_tenant_mismatch_no_reconcile :
  _verify Sample.message (Sample.snapshot None)
    (Sample.db [Sample.usage_row "tenantB"] [] [])
  = (save (InstanceExists.set_fail_reason (Some "Unexpected value for tenant")
             (InstanceExists.set_status FAILED (Sample.snapshot None)))
       (Sample.db [Sample.usage_row "tenantB"] [] []),
     Ok (false,
         InstanceExists.set_fail_reason (Some "Unexpected value for tenant")
           (InstanceExists.set_status FAILED (Sample.snapshot None)))).
Proof. vm_compute. reflexivity. Qed.

(** ** Properties of the matcher *)

Lemma truthy_Some (t : Z) : truthy (Some t) = true ↔ t ≠ 0.
Proof.
  unfold truthy. rewrite negb_true_iff. split.
  - intros H ->. discriminate.
  - intros H. apply Z.eqb_neq. exact H.
Qed.

Lemma truthy_None : truthy None = false.
Proof. reflexivity. Qed.

(** C8, as amended.  The same-second comparison answers "equal" exactly
    when both values are present and non-zero and either they are equal
    or they are equal once truncated to whole seconds; when either value
    is absent or is zero it answers "mismatch". *)
Theorem verify_date_field_same_second (d1 d2 : decimal) :
  _verify_date_field d1 d2 true = true
  ↔ ∃ a b, d1 = Some a ∧ d2 = Some b ∧ a ≠ 0 ∧ b ≠ 0
           ∧ (a = b ∨ int_seconds a = int_seconds b).
Proof.
  unfold _verify_date_field. split.
  - destruct d1 as [a|], d2 as [b|]; simpl;
      try (rewrite ?andb_false_r; discriminate).
    destruct (negb (a =? 0)) eqn:Ha; [|discriminate].
    destruct (negb (b =? 0)) eqn:Hb; [|discriminate].
    simpl. intros H. exists a, b.
    apply negb_true_iff, Z.eqb_neq in Ha.
    apply negb_true_iff, Z.eqb_neq in Hb.
    repeat split; try done.
    destruct (a =? b) eqn:Hab.
    + left. by apply Z.eqb_eq.
    + destruct (int_seconds a =? int_seconds b) eqn:Hs; [|discriminate].
      right. by apply Z.eqb_eq.
  - intros (a & b & -> & -> & Ha & Hb & Heq).
    apply truthy_Some in Ha. apply truthy_Some in Hb.
    rewrite Ha, Hb. simpl.
    destruct Heq as [-> | Hs].
    + by rewrite Z.eqb_refl.
    + rewrite Hs, Z.eqb_refl. by destruct (a =? b).
Qed.

(** C8, as stated, fails at the zero timestamp: two equal values compare
    as a mismatch. *)
Lemma verify_date_field_zero_mismatch :
  ¬ (∀ a b : Z,
       _verify_date_field (Some a) (Some b) true = true
       ↔ (a = b ∨ int_seconds a = int_seconds b)).
Proof.
  intros H. specialize (H 0 0). destruct H as [_ H].
  specialize (H (or_introl eq_refl)). vm_compute in H. discriminate.
Qed.

Example same_second_jitter :
  _verify_date_field (Some 1370000000123456) (Some 1370000000999999) true = true.
Proof. reflexivity. Qed.

Example next_second_differs :
  _verify_date_field (Some 1370000000999999) (Some 1370000001000000) true = false.
Proof. reflexivity. Qed.

Example exact_only_without_tolerance :
  _verify_date_field (Some 1370000000123456) (Some 1370000000999999) false = false.
Proof. reflexivity. Qed.

Lemma verify_date_field_present (d1 d2 : decimal) :
  _verify_date_field d1 d2 true = same_second_present d1 d2.
Proof.
  unfold _verify_date_field, same_second_present, truthy, int_seconds,
    usec_per_sec.
  destruct d1 as [a|], d2 as [b|]; try reflexivity.
  - destruct (negb (a =? 0)), (negb (b =? 0)); simpl; try reflexivity.
    destruct (a =? b); simpl; [reflexivity|].
    by destruct (_ =? _).
  - by rewrite andb_false_r.
Qed.

(** C7, as amended.  The field comparison is the first-failure scan of
    seven comparisons in the fixed order launched-at, instance type,
    tenant, provider options, OS architecture, OS version, OS distro: it
    reports the first field whose comparison fails, alone, and, being a
    function of the two records only, touches nothing.  The launched-at
    comparison passes when both values are present and non-zero and are
    equal or equal once truncated to whole seconds; it fails whenever
    either value is absent or zero, even if the two sides do not differ.
    The six other comparisons fail exactly when the values differ. *)
Theorem verify_field_mismatch_first_wins (exists_ : InstanceExists.t)
    (launch : launch_record) :
  _verify_field_mismatch exists_ launch
  = first_mismatch (field_scan same_second_present exists_ launch)
  ∧ cmp_field <$> field_scan same_second_present exists_ launch
    = ["launched_at"; "instance_type_id"; "tenant"; "rax_options";
       "os_architecture"; "os_version"; "os_distro"].
Proof.
  split; [|reflexivity].
  unfold _verify_field_mismatch, field_scan, text_ne.
  rewrite verify_date_field_present. simpl.
  destruct (same_second_present _ _); simpl; [|reflexivity].
  repeat (case_bool_decide; simpl; [|reflexivity]).
  reflexivity.
Qed.

(** C7, as stated, fails: with the launch time zero on both sides (so
    that launched-at does not differ) and different tenants, the first
    field that differs is the tenant, yet the comparison reports
    launched-at. *)
Lemma verify_field_mismatch_equal_launched_at :
  ¬ (∀ (exists_ : InstanceExists.t) (launch : launch_record),
       _verify_field_mismatch exists_ launch
       = first_mismatch (field_scan same_second_as_stated exists_ launch)).
Proof.
  intros H.
  specialize (H (InstanceExists.mk 7 "I1" (Some 0) None Sample.A (Some "2")
                   (Some "tenantA") (Some "opts") (Some "x64") (Some "12.04")
                   (Some "ubuntu") VERIFYING None None None JNull)
                (LUsage (InstanceUsage.mk "I1" (Some 0) (Some "2")
                           (Some "tenantB") (Some "opts") (Some "x64")
                           (Some "12.04") (Some "ubuntu")))).
  vm_compute in H. discriminate.
Qed.

Example equal_zero_launched_at_reported :
  _verify_field_mismatch
    (InstanceExists.mk 7 "I1" (Some 0) None Sample.A (Some "2")
       (Some "tenantA") (Some "opts") (Some "x64") (Some "12.04")
       (Some "ubuntu") VERIFYING None None None JNull)
    (LUsage (InstanceUsage.mk "I1" (Some 0) (Some "2") (Some "tenantB")
               (Some "opts") (Some "x64") (Some "12.04") (Some "ubuntu")))
  = Raise (FieldMismatch "launched_at" (VDecimal (Some 0)) (VDecimal (Some 0)))
  ∧ first_mismatch
      (field_scan same_second_as_stated
         (InstanceExists.mk 7 "I1" (Some 0) None Sample.A (Some "2")
            (Some "tenantA") (Some "opts") (Some "x64") (Some "12.04")
            (Some "ubuntu") VERIFYING None None None JNull)
         (LUsage (InstanceUsage.mk "I1" (Some 0) (Some "2") (Some "tenantB")
                    (Some "opts") (Some "x64") (Some "12.04")
                    (Some "ubuntu"))))
    = Raise (FieldMismatch "tenant" (VText (Some "tenantA"))
               (VText (Some "tenantB"))).
Proof. split; reflexivity. Qed.

Example tenant_reported_before_distro :
  _verify_field_mismatch
    (InstanceExists.mk 7 "I1" (Some Sample.T) None Sample.A (Some "2")
       (Some "tenantA") (Some "opts") (Some "x64") (Some "12.04")
       (Some "debian") VERIFYING None None None JNull)
    (LUsage (Sample.usage_row "tenantB"))
  = Raise (FieldMismatch "tenant" (VText (Some "tenantA"))
             (VText (Some "tenantB"))).
Proof. reflexivity. Qed.

(** ** Properties of the finder *)

Lemma objects_filter_ok {A} (rows : list A) (p : A → bool) :
  objects_filter None rows p = Ok (List.filter p rows).
Proof. reflexivity. Qed.

Lemma objects_filter_inv {A} fault (rows found : list A) (p : A → bool) :
  objects_filter fault rows p = Ok found →
  fault = None ∧ found = List.filter p rows.
Proof.
  unfold objects_filter. destruct fault; [discriminate|].
  intros [= <-]. done.
Qed.

Lemma in_window_spec (launched : datetime) (d : decimal) :
  in_window launched d = true
  ↔ ∃ t, d = Some t ∧ window_start launched ≤ t ≤ window_end launched.
Proof.
  unfold in_window, dt_to_decimal. destruct d as [t|].
  - rewrite andb_true_iff, !Z.leb_le. split.
    + intros [? ?]. exists t. done.
    + intros (? & [= <-] & ? & ?). done.
  - split; [discriminate|]. intros (? & ? & _). discriminate.
Qed.

Lemma deleted_at__lte_spec (bound : Z) (d : decimal) :
  deleted_at__lte bound d = true ↔ ∃ t, d = Some t ∧ t ≤ bound.
Proof.
  unfold deleted_at__lte. destruct d as [t|].
  - rewrite Z.leb_le. split.
    + intros ?. exists t. done.
    + intros (? & [= <-] & ?). done.
  - split; [discriminate|]. intros (? & ? & _). discriminate.
Qed.

(** The window is the second that contains the launch time. *)
Lemma window_bounds (launched : datetime) :
  window_start launched ≤ launched ≤ window_end launched
  ∧ window_start launched `mod` usec_per_sec = 0
  ∧ window_end launched - window_start launched = 999999.
Proof.
  unfold window_end, window_start, microsecond, usec_per_sec.
  pose proof (Z.mod_pos_bound launched 1000000 ltac:(lia)).
  split; [lia|]. split; [|lia].
  rewrite Zminus_mod_idemp_r, Z.sub_diag. reflexivity.
Qed.

(** C6, as amended.  With a bound, [_find_delete] returns exactly the
    delete rows of the instance whose launch time lies in the window and
    whose deletion time is at or before the bound; a row deleted exactly
    at the bound is included. *)
Theorem find_delete_bounded (db : Db) (instance : string)
    (launched deleted_max : datetime) (found : list InstanceDeletes.t) :
  _find_delete db instance launched (Some deleted_max) = Ok found →
  ∀ d, In d found
       ↔ In d (delete_rows db)
         ∧ InstanceDeletes.instance d = instance
         ∧ (∃ t, InstanceDeletes.launched_at d = Some t
                 ∧ window_start launched ≤ t ≤ window_end launched)
         ∧ (∃ t, InstanceDeletes.deleted_at d = Some t ∧ t ≤ deleted_max).
Proof.
  intros Hfind d. apply objects_filter_inv in Hfind as [_ ->].
  rewrite filter_In, !andb_true_iff, String.eqb_eq,
    in_window_spec, deleted_at__lte_spec.
  unfold dt_to_decimal. tauto.
Qed.

Lemma find_delete_bounded_witness :
  _find_delete (Sample.db [] [Sample.delete_row Sample.A] []) "I1" Sample.T
    (Some Sample.A) = Ok [Sample.delete_row Sample.A]
  ∧ ∃ t, InstanceDeletes.deleted_at (Sample.delete_row Sample.A) = Some t
         ∧ t ≤ Sample.A.
Proof.
  split; [reflexivity|].
  pose proof (proj1 (find_delete_bounded
                       (Sample.db [] [Sample.delete_row Sample.A] [])
                       "I1" Sample.T Sample.A [Sample.delete_row Sample.A]
                       eq_refl (Sample.delete_row Sample.A))
                (or_introl eq_refl)) as (_ & _ & _ & H).
  exact H.
Defined.

(** C6, as stated, fails: a delete row whose deletion time equals the
    bound is returned. *)
Lemma find_delete_includes_bound :
  ¬ (∀ (db : Db) (instance : string) (launched deleted_max : datetime)
       (found : list InstanceDeletes.t) (d : InstanceDeletes.t),
       _find_delete db instance launched (Some deleted_max) = Ok found →
       In d found →
       ∃ t, InstanceDeletes.deleted_at d = Some t ∧ t < deleted_max).
Proof.
  intros H.
  destruct (H (Sample.db [] [Sample.delete_row Sample.A] []) "I1" Sample.T
              Sample.A [Sample.delete_row Sample.A] (Sample.delete_row Sample.A)
              ltac:(reflexivity) ltac:(left; reflexivity))
    as (t & [= <-] & Hlt).
  lia.
Qed.

(** ** Properties of the marking functions *)

Lemma save_persisted (exist : InstanceExists.t) (db : Db) :
  persisted (save exist db) exist.
Proof. unfold persisted, save. simpl. apply lookup_insert_eq. Qed.

Lemma save_other_rows (exist : InstanceExists.t) (db : Db) (i : Z) :
  i ≠ InstanceExists.id exist →
  exists_rows (save exist db) !! i = exists_rows db !! i.
Proof. intros Hne. unfold save. simpl. by apply lookup_insert_ne. Qed.

Lemma mark_exist_verified_plain (exist : InstanceExists.t) (db : Db) :
  _mark_exist_verified exist false None db
  = (save (marked VERIFIED (InstanceExists.fail_reason exist) exist) db,
     marked VERIFIED (InstanceExists.fail_reason exist) exist).
Proof. reflexivity. Qed.

Lemma mark_exist_verified_reconciled (exist : InstanceExists.t)
    (reason : string) (db : Db) :
  _mark_exist_verified exist true (Some reason) db
  = (save (marked RECONCILED (Some reason) exist) db,
     marked RECONCILED (Some reason) exist).
Proof. reflexivity. Qed.

Lemma mark_exist_failed_reason (exist : InstanceExists.t) (reason : string)
    (db : Db) :
  reason ≠ "" →
  _mark_exist_failed exist (Some reason) db
  = (save (marked FAILED (Some reason) exist) db,
     marked FAILED (Some reason) exist).
Proof.
  intros Hne. unfold _mark_exist_failed.
  apply String.eqb_neq in Hne. rewrite Hne. reflexivity.
Qed.

(** Whatever the reason, a failed marking leaves FAILED, saved. *)
Lemma mark_exist_failed_any (exist : InstanceExists.t)
    (reason : option string) (db : Db) :
  ∃ r, _mark_exist_failed exist reason db
       = (save (marked FAILED r exist) db, marked FAILED r exist).
Proof.
  unfold _mark_exist_failed. destruct reason as [r|].
  - destruct (String.eqb r "").
    + by exists (InstanceExists.fail_reason exist).
    + by exists (Some r).
  - by exists (InstanceExists.fail_reason exist).
Qed.

(** ** Properties of the engine *)

Section EngineProperties.

Variable exn_str : exn → string.

Lemma attempt_reconciled_verify_success exist orig_e db :
  _verify_with_reconciled_data db exist orig_e = Ok () →
  _attempt_reconciled_verify exn_str exist orig_e db
  = (save (marked VERIFIED (InstanceExists.fail_reason exist) exist) db,
     Ok (true, marked VERIFIED (InstanceExists.fail_reason exist) exist)).
Proof.
  intros H. unfold _attempt_reconciled_verify, try_except, check, mark,
    mbind, M_bind, mret, M_ret.
  rewrite H. reflexivity.
Qed.

Lemma attempt_reconciled_verify_failure exist orig_e rec_e db :
  _verify_with_reconciled_data db exist orig_e = Raise rec_e →
  ∃ exist',
    _mark_exist_failed exist
      (Some (if is_NotFound rec_e then exn_str orig_e
             else if is_VerificationException rec_e then exn_str rec_e
             else class_name_of rec_e)) db
    = (save exist' db, exist')
    ∧ _attempt_reconciled_verify exn_str exist orig_e db
      = (save exist' db, Ok (false, exist')).
Proof.
  intros H.
  destruct (mark_exist_failed_any exist
              (Some (if is_NotFound rec_e then exn_str orig_e
                     else if is_VerificationException rec_e then exn_str rec_e
                     else class_name_of rec_e)) db) as [r Hr].
  eexists. split; [exact Hr|].
  unfold _attempt_reconciled_verify, try_except, check, mark,
    mbind, M_bind, mret, M_ret.
  rewrite H.
  destruct (is_NotFound rec_e); [|destruct (is_VerificationException rec_e)];
    rewrite Hr; reflexivity.
Qed.

Lemma attempt_reconciled_verify_returns exist orig_e db :
  ∃ verified s r,
    _attempt_reconciled_verify exn_str exist orig_e db
    = (save (marked s r exist) db, Ok (verified, marked s r exist))
    ∧ (s = VERIFIED ∨ s = FAILED).
Proof.
  destruct (_verify_with_reconciled_data db exist orig_e) as [[]|rec_e] eqn:H.
  - exists true, VERIFIED, (InstanceExists.fail_reason exist).
    split; [by apply attempt_reconciled_verify_success | by left].
  - destruct (attempt_reconciled_verify_failure _ _ _ _ H) as (e' & Hm & Ha).
    destruct (mark_exist_failed_any exist
                (Some (if is_NotFound rec_e then exn_str orig_e
                       else if is_VerificationException rec_e
                            then exn_str rec_e
                       else class_name_of rec_e)) db) as [r Hr].
    rewrite Hr in Hm. injection Hm as _ <-.
    exists false, FAILED, r. split; [exact Ha | by right].
Qed.

Lemma verify_unfold exist db :
  _verify exn_str exist db
  = match fast_path_checks db exist with
    | Ok _ =>
        (save (marked VERIFIED (InstanceExists.fail_reason exist) exist) db,
         Ok (true, marked VERIFIED (InstanceExists.fail_reason exist) exist))
    | Raise e =>
        if is_VerificationException e then
          _attempt_reconciled_verify exn_str exist e db
        else
          let '(db', exist') :=
            _mark_exist_failed exist (Some (class_name_of e)) db in
          (db', Ok (false, exist'))
    end.
Proof.
  unfold _verify, try_except, check, mark, mbind, M_bind, mret, M_ret.
  destruct (fast_path_checks db exist) as [[]|e]; [reflexivity|].
  destruct (is_VerificationException e); [reflexivity|].
  destruct (_mark_exist_failed exist (Some (class_name_of e)) db).
  reflexivity.
Qed.

End EngineProperties.

(** ** The engine on a store whose writes may fail *)

Lemma unreliable_mark_failed_shape (exist : InstanceExists.t)
    (reason : option string) (w : Unreliable.World) :
  ∃ r, Unreliable._mark_exist_failed exist reason w
       = ((Unreliable.save (marked FAILED r exist) w).1,
          marked FAILED r exist,
          (Unreliable.save (marked FAILED r exist) w).2)
       ∧ (∀ text, reason = Some text → text ≠ "" → r = Some text).
Proof.
  unfold Unreliable._mark_exist_failed. destruct reason as [text|].
  - destruct (String.eqb text "") eqn:Htext.
    + exists (InstanceExists.fail_reason exist). split.
      * by destruct (Unreliable.save _ w).
      * intros ? [= <-] Hne. apply String.eqb_eq in Htext. done.
    + exists (Some text). split.
      * by destruct (Unreliable.save _ w).
      * by intros ? [= <-] _.
  - exists (InstanceExists.fail_reason exist). split.
    + by destruct (Unreliable.save _ w).
    + intros ? [=].
Qed.

Lemma unreliable_save_view (exist : InstanceExists.t) (w : Unreliable.World) :
  (∃ rest,
     Unreliable.save exist w
     = (Unreliable.mkWorld (save exist (Unreliable.store w)) rest, Ok ())
     ∧ (∀ c, In (Some c) rest → In (Some c) (Unreliable.writes w)))
  ∨ (∃ c rest,
       Unreliable.writes w = Some c :: rest
       ∧ Unreliable.save exist w
         = (Unreliable.mkWorld (Unreliable.store w) rest,
            Raise (OtherException c))).
Proof.
  unfold Unreliable.save. destruct (Unreliable.writes w) as [|[c|] rest].
  - left. exists []. split; [reflexivity | by intros ? []].
  - right. by exists c, rest.
  - left. exists rest. split; [reflexivity | intros c Hc; by right].
Qed.

Lemma unreliable_fail_finish (exist cur : InstanceExists.t)
    (reason : option string) (w : Unreliable.World) :
  (∀ r, marked FAILED r cur = marked FAILED r exist) →
  InstanceExists.fail_reason cur = InstanceExists.fail_reason exist →
  (∃ r rest,
     Unreliable._mark_exist_failed cur reason w
     = (Unreliable.mkWorld
          (save (marked FAILED r exist) (Unreliable.store w)) rest,
        marked FAILED r exist, Ok ())
     ∧ (∀ c, In (Some c) rest → In (Some c) (Unreliable.writes w))
     ∧ (∀ text, reason = Some text → text ≠ "" → r = Some text))
  ∨ (∃ c rest e',
       Unreliable._mark_exist_failed cur reason w
       = (Unreliable.mkWorld (Unreliable.store w) rest, e',
          Raise (OtherException c))
       ∧ In (Some c) (Unreliable.writes w)).
Proof.
  intros Hcur Hreason.
  destruct (unreliable_mark_failed_shape cur reason w) as (r & -> & Hr).
  rewrite Hcur.
  destruct (unreliable_save_view (marked FAILED r exist) w)
    as [(rest & -> & Hin) | (c & rest & Hw & ->)].
  - left. exists r, rest. done.
  - right. exists c, rest, (marked FAILED r exist). split; [done|].
    rewrite Hw. by left.
Qed.

Section UnreliableEngine.

Variable exn_str : exn → string.

Lemma unreliable_verify_outcome (exist : InstanceExists.t)
    (w : Unreliable.World) :
  (∃ verified s reason rest,
     Unreliable._verify exn_str exist w
     = (Unreliable.mkWorld
          (save (marked s reason exist) (Unreliable.store w)) rest,
        Ok (verified, marked s reason exist))
     ∧ (s = VERIFIED ∨ s = FAILED)
     ∧ (writes_succeed w
        → (verified = true ∧ s = VERIFIED
           ∧ reason = InstanceExists.fail_reason exist)
          ∨ (verified = false ∧ s = FAILED)))
  ∨ (∃ c rest,
       Unreliable._verify exn_str exist w
       = (Unreliable.mkWorld (Unreliable.store w) rest,
          Raise (OtherException c))
       ∧ In (Some c) (Unreliable.writes w)).
Proof.
  unfold Unreliable._verify.
  destruct (fast_path_checks (Unreliable.store w) exist) as [[]|e].
  - unfold Unreliable._mark_exist_verified. simpl negb. cbv iota.
    destruct (unreliable_save_view (InstanceExists.set_status VERIFIED exist) w)
      as [(rest & -> & Hin) | (c & rest & Hw & ->)].
    + left. exists true, VERIFIED, (InstanceExists.fail_reason exist), rest.
      split; [reflexivity|]. split; [by left|]. intros _. by left.
    + change (is_VerificationException (OtherException c)) with false.
      cbv iota.
      destruct (unreliable_fail_finish exist
                  (InstanceExists.set_status VERIFIED exist)
                  (Some (class_name_of (OtherException c)))
                  (Unreliable.mkWorld (Unreliable.store w) rest))
        as [(r & rest' & -> & Hin & _) | (c' & rest' & e' & -> & Hin)];
        [done | done | |].
      * left. exists true, FAILED, r, rest'.
        split; [reflexivity|]. split; [by right|].
        intros Hok. exfalso. apply (Hok c). rewrite Hw. by left.
      * right. exists c', rest'. split; [reflexivity|].
        rewrite Hw. by right.
  - destruct (is_VerificationException e).
    + unfold Unreliable._attempt_reconciled_verify.
      destruct (_verify_with_reconciled_data (Unreliable.store w) exist e)
        as [[]|rec_e].
      * unfold Unreliable._mark_exist_verified. simpl negb. cbv iota.
        destruct (unreliable_save_view
                    (InstanceExists.set_status VERIFIED exist) w)
          as [(rest & -> & Hin) | (c & rest & Hw & ->)].
        -- left. exists true, VERIFIED, (InstanceExists.fail_reason exist), rest.
           split; [reflexivity|]. split; [by left|]. intros _. by left.
        -- change (is_NotFound (OtherException c)) with false.
           change (is_VerificationException (OtherException c)) with false.
           cbv iota.
           destruct (unreliable_fail_finish exist
                       (InstanceExists.set_status VERIFIED exist)
                       (Some (class_name_of (OtherException c)))
                       (Unreliable.mkWorld (Unreliable.store w) rest))
             as [(r & rest' & -> & Hin & _) | (c' & rest' & e' & -> & Hin)];
             [done | done | |].
           ++ left. exists true, FAILED, r, rest'.
              split; [reflexivity|]. split; [by right|].
              intros Hok. exfalso. apply (Hok c). rewrite Hw. by left.
           ++ right. exists c', rest'. split; [reflexivity|].
              rewrite Hw. by right.
      * destruct (unreliable_fail_finish exist exist
                    (Some (if is_NotFound rec_e then exn_str e
                           else if is_VerificationException rec_e
                                then exn_str rec_e
                           else class_name_of rec_e)) w)
          as [(r & rest' & -> & Hin & _) | (c' & rest' & e' & -> & Hin)];
          [done | done | |].
        -- left. exists false, FAILED, r, rest'.
           split; [reflexivity|]. split; [by right|]. intros _. by right.
        -- right. exists c', rest'. done.
    + destruct (unreliable_fail_finish exist exist
                  (Some (class_name_of e)) w)
        as [(r & rest' & -> & Hin & _) | (c' & rest' & e' & -> & Hin)];
        [done | done | |].
      * left. exists false, FAILED, r, rest'.
        split; [reflexivity|]. split; [by right|]. intros _. by right.
      * right. exists c', rest'. done.
Qed.

End UnreliableEngine.

(** C2, as amended.  One call to [_verify] propagates no exception other
    than one raised by saving the snapshot.  Whenever it returns, and in
    particular whenever every save succeeds, it returns a pair of a flag
    and the snapshot, the snapshot differs from the one passed in at
    most in status and fail reason, its status is one of VERIFIED,
    RECONCILED and FAILED (hence neither PENDING nor VERIFYING), and
    that version is the row the store holds.  When it raises, the
    exception is one that a save raised, and the store is as it was
    before the call. *)
Theorem verify_terminal_unless_save_raises (exn_str : exn → string)
    (exist : InstanceExists.t) (w : Unreliable.World) :
  let outcome := Unreliable._verify exn_str exist w in
  let returns :=
    ∃ verified s reason,
      outcome.2 = Ok (verified, marked s reason exist)
      ∧ terminal (InstanceExists.status (marked s reason exist))
      ∧ InstanceExists.status (marked s reason exist) ≠ PENDING
      ∧ InstanceExists.status (marked s reason exist) ≠ VERIFYING
      ∧ persisted (Unreliable.store outcome.1) (marked s reason exist) in
  let raises :=
    ∃ class_name,
      outcome.2 = Raise (OtherException class_name)
      ∧ In (Some class_name) (Unreliable.writes w)
      ∧ Unreliable.store outcome.1 = Unreliable.store w in
  (returns ∨ raises) ∧ (writes_succeed w → returns).
Proof.
  intros outcome returns raises. subst outcome returns raises.
  destruct (unreliable_verify_outcome exn_str exist w)
    as [(verified & s & reason & rest & -> & Hs & _)
       | (c & rest & -> & Hin)]; simpl.
  - assert (Hret : ∃ verified0 s0 reason0,
              @Ok (bool * InstanceExists.t) (verified, marked s reason exist)
              = Ok (verified0, marked s0 reason0 exist)
              ∧ terminal s0 ∧ s0 ≠ PENDING ∧ s0 ≠ VERIFYING
              ∧ persisted (save (marked s reason exist) (Unreliable.store w))
                  (marked s0 reason0 exist)).
    { exists verified, s, reason. split; [reflexivity|].
      unfold terminal.
      repeat split; try apply save_persisted;
        destruct Hs as [-> | ->]; auto; discriminate. }
    split; [by left | by intros _].
  - split.
    + right. exists c. done.
    + intros Hok. exfalso. by apply (Hok c).
Qed.

Lemma verify_terminal_unless_save_raises_witness :
  ∃ verified s reason,
    (Unreliable._verify Sample.message (Sample.snapshot None)
       (Unreliable.mkWorld (Sample.db [Sample.usage_row "tenantB"] [] [])
          [None])).2
    = Ok (verified, marked s reason (Sample.snapshot None))
    ∧ terminal (InstanceExists.status (marked s reason (Sample.snapshot None)))
    ∧ InstanceExists.status (marked s reason (Sample.snapshot None)) ≠ PENDING
    ∧ InstanceExists.status (marked s reason (Sample.snapshot None))
      ≠ VERIFYING
    ∧ persisted
        (Unreliable.store
           (Unreliable._verify Sample.message (Sample.snapshot None)
              (Unreliable.mkWorld
                 (Sample.db [Sample.usage_row "tenantB"] [] []) [None])).1)
        (marked s reason (Sample.snapshot None)).
Proof.
  apply (proj2 (verify_terminal_unless_save_raises Sample.message
                  (Sample.snapshot None)
                  (Unreliable.mkWorld
                     (Sample.db [Sample.usage_row "tenantB"] [] []) [None]))).
  intros c [[=] | []].
Defined.

(** C2, as stated, fails: when the store is unavailable, the usage
    query raises, the handler marks the snapshot FAILED, and the save in
    the handler raises in turn; that exception leaves [_verify]. *)
Lemma verify_propagates_failed_save :
  ¬ (∀ (exn_str : exn → string) (exist : InstanceExists.t)
       (w : Unreliable.World),
       ∃ verified exist',
         (Unreliable._verify exn_str exist w).2 = Ok (verified, exist')
         ∧ terminal (InstanceExists.status exist')
         ∧ persisted (Unreliable.store (Unreliable._verify exn_str exist w).1)
             exist').
Proof.
  intros H.
  destruct (H Sample.message (Sample.snapshot None)
              (Unreliable.mkWorld
                 (mkDb [] [] [] {[ 7 := Sample.snapshot None ]}
                    (Some "OperationalError") (Some "OperationalError")
                    (Some "OperationalError"))
                 [Some "OperationalError"]))
    as (verified & exist' & Hraise & _).
  vm_compute in Hraise. discriminate.
Qed.

(** The same run: the exception leaves [_verify] and the stored row is
    still VERIFYING. *)
Example unavailable_store_leaves_verifying :
  (Unreliable._verify Sample.message (Sample.snapshot None)
     (Unreliable.mkWorld
        (mkDb [] [] [] {[ 7 := Sample.snapshot None ]}
           (Some "OperationalError") (Some "OperationalError")
           (Some "OperationalError"))
        [Some "OperationalError"])).2
  = Raise (OtherException "OperationalError")
  ∧ InstanceExists.status <$>
      exists_rows
        (Unreliable.store
           (Unreliable._verify Sample.message (Sample.snapshot None)
              (Unreliable.mkWorld
                 (mkDb [] [] [] {[ 7 := Sample.snapshot None ]}
                    (Some "OperationalError") (Some "OperationalError")
                    (Some "OperationalError"))
                 [Some "OperationalError"])).1) !! 7
    = Some VERIFYING.
Proof. split; vm_compute; reflexivity. Qed.

Lemma bind_Ok {A B} (a : A) (f : A → result B) : (Ok a ≫= f) = f a.
Proof. reflexivity. Qed.

Lemma bind_Raise {A B} (e : exn) (f : A → result B) : (Raise e ≫= f) = Raise e.
Proof. reflexivity. Qed.

Lemma dt_from_decimal_Some (t : Z) : dt_from_decimal (Some t) = Ok t.
Proof. reflexivity. Qed.

(** A non-empty window search implies a non-empty per-instance search. *)
Lemma filter_conj_nonempty {A} (p q : A → bool) (rows : list A) :
  List.filter p rows = [] → List.filter (λ x, p x && q x) rows = [].
Proof.
  induction rows as [|x rows IH]; [reflexivity|]. simpl.
  destruct (p x); [discriminate|]. simpl. exact IH.
Qed.

Lemma length_pos_nil {A} (l : list A) : (0 <? length l)%nat = false → l = [].
Proof. destruct l; [reflexivity | discriminate]. Qed.

(** C3, as amended.  When the snapshot has no attached record, the
    launch lookup of the fast path and the reconcile lookup of the
    fallback raise NotFound on an empty result set, use the record of a
    singleton result set as the match, and raise AmbiguousResults on a
    larger one.  The delete lookup of a snapshot with a deleted-at uses
    the record of a singleton result set and raises NotFound on every
    other cardinality, zero or several.  No lookup picks one of several
    candidates. *)
Theorem lookup_cardinality (db : Db) (exist : InstanceExists.t)
    (launched : Z) :
  InstanceExists.launched_at exist = Some launched →
  (∀ launches launch_type,
     InstanceExists.usage exist = None →
     _find_launch db (InstanceExists.instance exist) launched = Ok launches →
     match launches with
     | [] =>
         ∃ query, _verify_for_launch db exist None launch_type
                  = Raise (NotFound launch_type query)
     | [launch] =>
         _verify_for_launch db exist None launch_type
         = _verify_for_launch db exist (Some (LUsage launch)) launch_type
     | _ :: _ :: _ =>
         _verify_for_launch db exist None launch_type
         = Raise (AmbiguousResults launch_type (launch_query exist))
     end)
  ∧ (∀ deletes delete_type,
       InstanceExists.delete exist = None →
       truthy (InstanceExists.deleted_at exist) = true →
       _find_delete db (InstanceExists.instance exist) launched None
       = Ok deletes →
       match deletes with
       | [delete] =>
           _verify_for_delete db exist None delete_type
           = _verify_for_delete db exist (Some (DDelete delete)) delete_type
       | _ =>
           _verify_for_delete db exist None delete_type
           = Raise (NotFound delete_type (launch_query exist))
       end)
  ∧ (∀ recs ex,
       launched ≠ 0 →
       _find_reconcile db (InstanceExists.instance exist) launched = Ok recs →
       match recs with
       | [] =>
           ∃ query, _verify_with_reconciled_data db exist ex
                    = Raise (NotFound "InstanceReconcile" query)
       | [reconcile] =>
           _verify_with_reconciled_data db exist ex
           = (_verify_for_launch db exist (Some (LReconcile reconcile))
                "InstanceReconcile";;
              _verify_for_delete db exist (Some (DReconcile reconcile))
                "InstanceReconcile")
       | _ :: _ :: _ =>
           _verify_with_reconciled_data db exist ex
           = Raise (AmbiguousResults "InstanceReconcile" (launch_query exist))
       end).
Proof.
  intros Hlaunched. split; [|split].
  - intros launches launch_type Husage Hfind.
    unfold _verify_for_launch. rewrite Husage, Hlaunched.
    pose proof Hfind as Hinv.
    apply objects_filter_inv in Hinv as [Hfault Hrows].
    rewrite Hfault, objects_filter_ok, bind_Ok.
    destruct (0 <? length _)%nat eqn:Hknown.
    + rewrite dt_from_decimal_Some, bind_Ok, Hfind, bind_Ok.
      destruct launches as [|launch [|launch' launches]]; simpl.
      * eexists. reflexivity.
      * reflexivity.
      * reflexivity.
    + apply length_pos_nil in Hknown.
      apply (filter_conj_nonempty _
               (λ u, in_window launched (InstanceUsage.launched_at u)))
        in Hknown.
      rewrite Hknown in Hrows. subst launches.
      eexists. reflexivity.
  - intros deletes delete_type Hdelete Htruthy Hfind.
    destruct deletes as [|delete [|delete' deletes]];
      unfold _verify_for_delete;
      rewrite Hdelete, Htruthy, Hlaunched, dt_from_decimal_Some, bind_Ok,
        Hfind, bind_Ok;
      reflexivity.
  - intros recs ex Hnz Hfind.
    unfold _verify_with_reconciled_data.
    rewrite Hlaunched, (proj2 (truthy_Some launched) Hnz).
    pose proof Hfind as Hinv.
    apply objects_filter_inv in Hinv as [Hfault Hrows].
    rewrite Hfault, objects_filter_ok. simpl negb. cbv iota.
    rewrite !bind_Ok.
    destruct (0 <? length _)%nat eqn:Hknown.
    + rewrite dt_from_decimal_Some, bind_Ok, Hfind, bind_Ok.
      destruct recs as [|reconcile [|reconcile' recs]]; simpl.
      * eexists. reflexivity.
      * reflexivity.
      * reflexivity.
    + apply length_pos_nil in Hknown.
      apply (filter_conj_nonempty _
               (λ r, in_window launched (InstanceReconcile.launched_at r)))
        in Hknown.
      rewrite Hknown in Hrows. subst recs.
      eexists. reflexivity.
Qed.

Lemma lookup_cardinality_witness :
  InstanceExists.launched_at (Sample.snapshot (Some Sample.D)) = Some Sample.T
  ∧ _verify_for_launch
      (Sample.db [Sample.usage_row "tenantA"; Sample.usage_row "tenantB"]
         [Sample.delete_row Sample.D] [])
      (Sample.snapshot (Some Sample.D)) None "InstanceUsage"
    = Raise (AmbiguousResults "InstanceUsage"
               (launch_query (Sample.snapshot (Some Sample.D))))
  ∧ _verify_for_delete
      (Sample.db [Sample.usage_row "tenantA"; Sample.usage_row "tenantB"]
         [Sample.delete_row Sample.D] [])
      (Sample.snapshot (Some Sample.D)) None "InstanceDelete"
    = _verify_for_delete
        (Sample.db [Sample.usage_row "tenantA"; Sample.usage_row "tenantB"]
           [Sample.delete_row Sample.D] [])
        (Sample.snapshot (Some Sample.D))
        (Some (DDelete (Sample.delete_row Sample.D))) "InstanceDelete"
  ∧ ∃ query,
      _verify_with_reconciled_data
        (Sample.db [Sample.usage_row "tenantA"; Sample.usage_row "tenantB"]
           [Sample.delete_row Sample.D] [])
        (Sample.snapshot (Some Sample.D)) (OtherException "")
      = Raise (NotFound "InstanceReconcile" query).
Proof.
  split; [reflexivity|].
  destruct (lookup_cardinality
              (Sample.db [Sample.usage_row "tenantA"; Sample.usage_row "tenantB"]
                 [Sample.delete_row Sample.D] [])
              (Sample.snapshot (Some Sample.D)) Sample.T eq_refl)
    as (Hlaunch & Hdelete & Hreconcile).
  split; [|split].
  - exact (Hlaunch [Sample.usage_row "tenantA"; Sample.usage_row "tenantB"]
             "InstanceUsage" eq_refl eq_refl).
  - exact (Hdelete [Sample.delete_row Sample.D] "InstanceDelete"
             eq_refl eq_refl eq_refl).
  - exact (Hreconcile [] (OtherException "") ltac:(discriminate) eq_refl).
Defined.

(** C3, as stated, fails for the delete lookup: with two delete rows in
    the window the verifier raises NotFound, not AmbiguousResults. *)
Lemma delete_lookup_not_ambiguous :
  ¬ (∀ (db : Db) (exist : InstanceExists.t) (launched : Z)
       (deletes : list InstanceDeletes.t) (delete_type : string),
       InstanceExists.launched_at exist = Some launched →
       InstanceExists.delete exist = None →
       truthy (InstanceExists.deleted_at exist) = true →
       _find_delete db (InstanceExists.instance exist) launched None
       = Ok deletes →
       (1 < length deletes)%nat →
       ∃ query, _verify_for_delete db exist None delete_type
                = Raise (AmbiguousResults delete_type query)).
Proof.
  intros H.
  destruct (H (Sample.db [Sample.usage_row "tenantA"]
                 [Sample.delete_row Sample.D; Sample.delete_row (Sample.D + 1)]
                 [])
              (Sample.snapshot (Some Sample.D)) Sample.T
              [Sample.delete_row Sample.D; Sample.delete_row (Sample.D + 1)]
              "InstanceDelete" eq_refl eq_refl eq_refl eq_refl
              ltac:(simpl; lia))
    as [query Hq].
  vm_compute in Hq. discriminate.
Qed.

Example two_deletes_raise_not_found :
  _verify_for_delete
    (Sample.db [Sample.usage_row "tenantA"]
       [Sample.delete_row Sample.D; Sample.delete_row (Sample.D + 1)] [])
    (Sample.snapshot (Some Sample.D)) None "InstanceDelete"
  = Raise (NotFound "InstanceDelete"
             (launch_query (Sample.snapshot (Some Sample.D)))).
Proof. reflexivity. Qed.

Lemma in_window_enclosing_second (launched : datetime) (d : decimal) :
  in_window launched d = true
  ↔ ∃ t, d = Some t
         ∧ 1000000 * (launched `div` 1000000) ≤ t
         ∧ t ≤ 1000000 * (launched `div` 1000000) + 999999.
Proof.
  rewrite in_window_spec.
  unfold window_end, window_start, microsecond, usec_per_sec.
  split; intros (t & -> & Hbounds); exists t; (split; [reflexivity|]);
    Z.div_mod_to_equations; lia.
Qed.

(** C5.  For a snapshot with no deleted-at and no attached delete record
    (and a launch time, as on the fast path), delete verification
    searches the delete rows of the same instance whose launch time lies
    in the second enclosing the snapshot's launch time and that were
    deleted at or before the end of the audit period; it raises the
    verification failure [Found ...s for non-delete exist] if and only
    if at least one such row exists, and passes if none does. *)
Theorem no_delete_contradiction (db : Db) (exist : InstanceExists.t)
    (launched : Z) (delete_type : string) :
  InstanceExists.deleted_at exist = None →
  InstanceExists.delete exist = None →
  InstanceExists.launched_at exist = Some launched →
  delete_fault db = None →
  (_verify_for_delete db exist None delete_type
   = Raise (VerificationException
              ("Found " +:+ delete_type +:+ "s for non-delete exist"))
   ↔ ∃ d, In d (delete_rows db) ∧ contradicting_delete exist launched d)
  ∧ ((¬ ∃ d, In d (delete_rows db) ∧ contradicting_delete exist launched d)
     → _verify_for_delete db exist None delete_type = Ok ()).
Proof.
  intros Hdeleted Hdelete Hlaunched Hfault.
  unfold _verify_for_delete.
  rewrite Hdeleted, Hdelete, Hlaunched, truthy_None, !dt_from_decimal_Some,
    !bind_Ok.
  unfold _find_delete. rewrite Hfault, objects_filter_ok, bind_Ok.
  match goal with |- context [List.filter ?p ?l] =>
    set (found := List.filter p l);
    assert (Hfound : ∀ d, In d found
              ↔ In d (delete_rows db) ∧ contradicting_delete exist launched d)
  end.
  { intros d. unfold found, contradicting_delete.
    rewrite filter_In, !andb_true_iff, String.eqb_eq,
      in_window_enclosing_second, deleted_at__lte_spec.
    unfold dt_to_decimal. tauto. }
  clearbody found. split; [split|].
  - destruct found as [|d found]; [discriminate|].
    intros _. exists d. apply Hfound. by left.
  - intros [d Hd]. apply Hfound in Hd.
    destruct found; [destruct Hd | reflexivity].
  - intros Hnone. destruct found as [|d found]; [reflexivity|].
    exfalso. apply Hnone. exists d. apply Hfound. by left.
Qed.

Lemma no_delete_contradiction_witness :
  _verify_for_delete
    (Sample.db []
       [InstanceDeletes.mk "I1" (Some (Sample.T + 876543)) (Some Sample.A)] [])
    (Sample.snapshot None) None "InstanceDelete"
  = Raise (VerificationException "Found InstanceDeletes for non-delete exist")
  ∧ _verify_for_delete (Sample.db [] [Sample.delete_row (Sample.A + 1)] [])
      (Sample.snapshot None) None "InstanceDelete"
    = Ok ().
Proof.
  split.
  - apply (proj1 (no_delete_contradiction
                    (Sample.db []
                       [InstanceDeletes.mk "I1" (Some (Sample.T + 876543))
                          (Some Sample.A)] [])
                    (Sample.snapshot None) Sample.T "InstanceDelete"
                    eq_refl eq_refl eq_refl eq_refl)).
    eexists. split; [left; reflexivity|].
    split; [reflexivity|].
    split; eexists; (split; [reflexivity|]); vm_compute;
      try split; discriminate.
  - apply (proj2 (no_delete_contradiction
                    (Sample.db [] [Sample.delete_row (Sample.A + 1)] [])
                    (Sample.snapshot None) Sample.T "InstanceDelete"
                    eq_refl eq_refl eq_refl eq_refl)).
    intros (d & [<- | []] & _ & _ & t & [= <-] & Hle).
    vm_compute in Hle. by apply Hle.
Defined.

(** A delete launched in the neighbouring second is outside the search:
    the snapshot passes although the row was deleted in time. *)
Example delete_of_next_second_ignored :
  _verify_for_delete
    (Sample.db []
       [InstanceDeletes.mk "I1" (Some (Sample.T + 876544)) (Some Sample.D);
        InstanceDeletes.mk "I1" (Some (Sample.T - 123457)) (Some Sample.D)] [])
    (Sample.snapshot None) None "InstanceDelete"
  = Ok ().
Proof. reflexivity. Qed.



(** C1, on the code.  A deleted snapshot whose usage row carries another
    tenant fails the fast path with a tenant mismatch; exactly one
    reconcile row matches it and passes every comparison of the
    fallback; [_verify] then returns [verified = True] but marks the
    snapshot VERIFIED, not RECONCILED, and leaves its fail reason unset:
    the success branch of [_attempt_reconciled_verify] calls
    [_mark_exist_verified(exist)] without [reconciled] and [reason]. *)
Theorem reconciled_success_marks_verified :
  let snapshot := Sample.snapshot (Some Sample.D) in
  let db := Sample.db [Sample.usage_row "tenantB"]
              [Sample.delete_row Sample.D]
              [Sample.reconcile_row (Some Sample.D)] in
  let orig_e := FieldMismatch "tenant" (VText (Some "tenantA"))
                  (VText (Some "tenantB")) in
  fast_path_checks db snapshot = Raise orig_e
  ∧ _find_reconcile db "I1" Sample.T = Ok [Sample.reconcile_row (Some Sample.D)]
  ∧ _verify_with_reconciled_data db snapshot orig_e = Ok ()
  ∧ ∀ exn_str : exn → string,
      _verify exn_str snapshot db
      = (save (marked VERIFIED None snapshot) db,
         Ok (true, marked VERIFIED None snapshot))
      ∧ InstanceExists.status (marked VERIFIED None snapshot) ≠ RECONCILED
      ∧ InstanceExists.fail_reason (marked VERIFIED None snapshot)
        ≠ Some (exn_str orig_e).
Proof.
  intros snapshot db orig_e.
  split; [reflexivity|]. split; [reflexivity|]. split; [reflexivity|].
  intros exn_str. split; [|split; discriminate].
  rewrite verify_unfold.
  change (fast_path_checks db snapshot) with (@Raise unit orig_e).
  change (is_VerificationException orig_e) with true. cbv iota.
  by rewrite attempt_reconciled_verify_success.
Qed.

(** What the unused branch of [_mark_exist_verified] would have stored. *)
Example mark_reconciled_branch :
  InstanceExists.status
    (snd (_mark_exist_verified (Sample.snapshot (Some Sample.D)) true
            (Some "Unexpected value for tenant")
            (Sample.db [] [] [])))
  = RECONCILED
  ∧ InstanceExists.fail_reason
      (snd (_mark_exist_verified (Sample.snapshot (Some Sample.D)) true
              (Some "Unexpected value for tenant")
              (Sample.db [] [] [])))
    = Some "Unexpected value for tenant".
Proof. split; reflexivity. Qed.

(** A snapshot that claims no deletion cannot pass the fallback: the
    deleted-at comparison of two absent values is a mismatch. *)
Example reconcile_without_deleted_at :
  _verify_with_reconciled_data
    (Sample.db [Sample.usage_row "tenantB"] [] [Sample.reconcile_row None])
    (Sample.snapshot None) (OtherException "")
  = Raise (FieldMismatch "deleted_at" (VDecimal None) (VDecimal None)).
Proof. reflexivity. Qed.

(** ** Properties of the notification step *)

Lemma send_each_app (message : json) (keys : list string) (conn : connection)
    (exchange : Exchange.t) :
  send_each message keys conn exchange
  = (conn ++ ((λ key, mkPublication exchange (JStr key) message) <$> keys))%list.
Proof.
  revert conn. induction keys as [|key keys IH]; intros conn; simpl.
  - by rewrite app_nil_r.
  - rewrite IH. unfold _send_notification. by rewrite <- app_assoc.
Qed.

(** C9.  For a verified snapshot whose raw message is a pair of a
    routing key and a body that has a [message_id], the callback
    publishes, after what the connection already carried, one message
    per configured routing key, in order, or a single message on the raw
    message's own routing key when none is configured.  Every published
    message is the same body, which has [event_type] set to
    ["compute.instance.exists.verified.old"], [original_message_id] set
    to the previous [message_id], [message_id] set to the new identifier,
    and every other field as in the raw body. *)
Theorem verified_notification (rabbit : rabbit_config) (exchange : Exchange.t)
    (exist : InstanceExists.t) (conn : connection) (uuid4 : string)
    (routing_key : json) (body : gmap string json) (rest : list json)
    (message_id : json) :
  InstanceExists.raw exist = JList (routing_key :: JDict body :: rest) →
  body !! "message_id" = Some message_id →
  ∃ body' : gmap string json,
    body' !! "event_type" = Some (JStr "compute.instance.exists.verified.old")
    ∧ body' !! "original_message_id" = Some message_id
    ∧ body' !! "message_id" = Some (JStr uuid4)
    ∧ (∀ key, key ∉ rewritten_keys → body' !! key = body !! key)
    ∧ Verifier.callback rabbit exchange (true, exist) conn uuid4
      = ((conn ++ match routing_keys rabbit with
                  | None => [mkPublication exchange routing_key (JDict body')]
                  | Some keys =>
                      (λ key, mkPublication exchange (JStr key) (JDict body'))
                      <$> keys
                  end)%list,
         Ok ()).
Proof.
  intros Hraw Hid.
  exists (<["message_id" := JStr uuid4]>
            (<["original_message_id" := message_id]>
               (<["event_type" := JStr "compute.instance.exists.verified.old"]>
                  body))).
  split; [by simplify_map_eq|].
  split; [by simplify_map_eq|].
  split; [by simplify_map_eq|].
  split.
  - intros key Hkey. unfold rewritten_keys in Hkey.
    rewrite !lookup_insert_ne; [done|..]; intros <-; apply Hkey;
      repeat constructor.
  - unfold Verifier.callback, send_verified_notification.
    rewrite Hraw.
    change (json_index (JList (routing_key :: JDict body :: rest)) 1)
      with (Ok (JDict body)).
    change (json_index (JList (routing_key :: JDict body :: rest)) 0)
      with (Ok routing_key).
    rewrite bind_Ok.
    change (as_dict (JDict body)) with (Ok body).
    rewrite bind_Ok.
    unfold dict_get. rewrite lookup_insert_ne by done. rewrite Hid, bind_Ok.
    destruct (routing_keys rabbit) as [keys|].
    + by rewrite send_each_app.
    + by rewrite bind_Ok.
Qed.

Lemma verified_notification_witness :
  ∃ body' : gmap string json,
    body' !! "event_type" = Some (JStr "compute.instance.exists.verified.old")
    ∧ body' !! "original_message_id" = Some (JStr "8f1c")
    ∧ body' !! "message_id" = Some (JStr "0b6e")
    ∧ (∀ key, key ∉ rewritten_keys
              → body' !! key
                = ({[ "event_type" := JStr "compute.instance.exists";
                      "message_id" := JStr "8f1c";
                      "payload" := JDict {[ "instance_id" := JStr "I1" ]} ]}
                   : gmap string json) !! key)
    ∧ Verifier.callback (mkRabbit "stacktach" true (Some ["a.info"; "b.info"]))
        (Exchange.mk "stacktach" "topic" false false true)
        (true, Sample.snapshot None) [] "0b6e"
      = ([mkPublication (Exchange.mk "stacktach" "topic" false false true)
            (JStr "a.info") (JDict body');
          mkPublication (Exchange.mk "stacktach" "topic" false false true)
            (JStr "b.info") (JDict body')],
         Ok ()).
Proof.
  exact (verified_notification
           (mkRabbit "stacktach" true (Some ["a.info"; "b.info"]))
           (Exchange.mk "stacktach" "topic" false false true)
           (Sample.snapshot None) [] "0b6e" (JStr "monitor.info")
           {[ "event_type" := JStr "compute.instance.exists";
              "message_id" := JStr "8f1c";
              "payload" := JDict {[ "instance_id" := JStr "I1" ]} ]}
           [] (JStr "8f1c") eq_refl eq_refl).
Defined.

Example unverified_sends_nothing :
  Verifier.callback (mkRabbit "stacktach" true None)
    (Exchange.mk "stacktach" "topic" false false true)
    (false, Sample.snapshot None) [] "0b6e"
  = ([], Ok ()).
Proof. reflexivity. Qed.

Example missing_message_id_raises :
  send_verified_notification
    (InstanceExists.mk 7 "I1" (Some Sample.T) None Sample.A None None None
       None None None VERIFIED None None None
       (JList [JStr "monitor.info"; JDict ∅]))
    [] (Exchange.mk "stacktach" "topic" false false true) None "0b6e"
  = ([], Raise (OtherException "KeyError")).
Proof. reflexivity. Qed.

(** C10.  [_create_exchange] builds the exchange with [exclusive] taken
    from its [auto_delete] argument and [auto_delete] taken from its
    [exclusive] argument, the other attributes being passed through; the
    exchanges [run] and [run_once] create leave both arguments at their
    default [False], so they are the exchanges an unswapped constructor
    would create. *)
Theorem create_exchange_swaps_flags :
  (∀ name type exclusive auto_delete durable,
     Exchange.exclusive
       (_create_exchange name type exclusive auto_delete durable)
     = auto_delete
     ∧ Exchange.auto_delete
         (_create_exchange name type exclusive auto_delete durable)
       = exclusive
     ∧ Exchange.name (_create_exchange name type exclusive auto_delete durable)
       = name
     ∧ Exchange.type (_create_exchange name type exclusive auto_delete durable)
       = type
     ∧ Exchange.durable
         (_create_exchange name type exclusive auto_delete durable)
       = durable)
  ∧ default_exclusive = false
  ∧ default_auto_delete = false
  ∧ (∀ rabbit,
       Verifier.run_exchange rabbit
       = Exchange.mk (exchange_name rabbit) "topic" default_exclusive
           default_auto_delete (durable_queue rabbit)
       ∧ Verifier.run_once_exchange rabbit
         = Exchange.mk (exchange_name rabbit) "topic" default_exclusive
             default_auto_delete (durable_queue rabbit)).
Proof. repeat split. Qed.

Example swapped_when_flags_differ :
  _create_exchange "stacktach" "topic" true false true
  = Exchange.mk "stacktach" "topic" false true true.
Proof. reflexivity. Qed.

(** * Further properties of the module *)

(** ** Timestamps and the search window *)

(** The window of a launch time holds exactly the timestamps of the same
    calendar second. *)
Lemma in_window_same_second (launched t : Z) :
  in_window launched (Some t) = true
  ↔ t `div` usec_per_sec = launched `div` usec_per_sec.
Proof.
  rewrite in_window_spec.
  unfold window_end, window_start, microsecond, usec_per_sec.
  split.
  - intros (t' & [= <-] & Hlo & Hhi). Z.div_mod_to_equations. lia.
  - intros Heq. exists t. split; [reflexivity|].
    Z.div_mod_to_equations. lia.
Qed.

Lemma int_seconds_nonneg (t : Z) :
  0 ≤ t → int_seconds t = t `div` usec_per_sec.
Proof.
  intros Ht. unfold int_seconds, usec_per_sec.
  apply Z.quot_div_nonneg; lia.
Qed.

(** X6.  The date comparison does not depend on the order of its two
    timestamps, in either mode. *)
Theorem verify_date_field_sym (d1 d2 : decimal) (same_second : bool) :
  _verify_date_field d1 d2 same_second = _verify_date_field d2 d1 same_second.
Proof.
  unfold _verify_date_field.
  destruct d1 as [a|], d2 as [b|]; simpl;
    rewrite ?andb_false_r; try reflexivity.
  rewrite (andb_comm (negb (a =? 0))), (Z.eqb_sym a b),
    (Z.eqb_sym (int_seconds a) (int_seconds b)).
  reflexivity.
Qed.

Lemma same_second_after_epoch (a b : Z) :
  0 < a → 0 < b →
  _verify_date_field (Some a) (Some b) true = true
  ↔ a `div` usec_per_sec = b `div` usec_per_sec.
Proof.
  intros Ha Hb. unfold _verify_date_field, truthy.
  rewrite (proj2 (Z.eqb_neq a 0)), (proj2 (Z.eqb_neq b 0)) by lia.
  simpl. rewrite !int_seconds_nonneg by lia.
  destruct (a =? b) eqn:Hab.
  - apply Z.eqb_eq in Hab. subst. done.
  - destruct (a `div` usec_per_sec =? b `div` usec_per_sec) eqn:Hs.
    + apply Z.eqb_eq in Hs. done.
    + apply Z.eqb_neq in Hs. split; [discriminate | done].
Qed.

(** X7.  For two timestamps after the epoch, the same-second comparison
    answers "equal" exactly when both lie in the same calendar second;
    in particular two such timestamps one second or more apart never
    compare equal. *)
Theorem verify_date_field_after_epoch (a b : Z) :
  0 < a → 0 < b →
  (_verify_date_field (Some a) (Some b) true = true
   ↔ a `div` usec_per_sec = b `div` usec_per_sec)
  ∧ (usec_per_sec ≤ Z.abs (a - b)
     → _verify_date_field (Some a) (Some b) true = false).
Proof.
  intros Ha Hb.
  pose proof (same_second_after_epoch a b Ha Hb) as Hiff.
  split; [exact Hiff|].
  intros Hfar. apply not_true_is_false. intros Heq. apply Hiff in Heq.
  unfold usec_per_sec in *. Z.div_mod_to_equations. lia.
Qed.

Lemma verify_date_field_after_epoch_witness :
  (_verify_date_field (Some 1370000000123456) (Some 1370000000999999) true
   = true
   ↔ 1370000000123456 `div` usec_per_sec = 1370000000999999 `div` usec_per_sec)
  ∧ (usec_per_sec ≤ Z.abs (1370000000123456 - 1370000000999999)
     → _verify_date_field (Some 1370000000123456) (Some 1370000000999999) true
       = false).
Proof.
  apply (verify_date_field_after_epoch 1370000000123456 1370000000999999);
    reflexivity.
Defined.

(** Before the epoch the two notions differ: truncation toward zero puts
    -0.9s and +0.5s in the same "second". *)
Example truncation_joins_around_zero :
  _verify_date_field (Some (-900000)) (Some 500000) true = true.
Proof. reflexivity. Qed.

(** ** The matcher *)

Lemma text_ne_false (a b : option string) : text_ne a b = false ↔ a = b.
Proof.
  unfold text_ne. rewrite negb_false_iff, bool_decide_eq_true. done.
Qed.

(** X8.  The field comparison passes exactly when the launch time agrees
    under the same-second comparison and the six text attributes are
    equal on both sides (two missing values counting as equal). *)
Theorem verify_field_mismatch_ok (exists_ : InstanceExists.t)
    (launch : launch_record) :
  _verify_field_mismatch exists_ launch = Ok ()
  ↔ _verify_date_field (Launch.launched_at launch)
      (InstanceExists.launched_at exists_) true = true
    ∧ Launch.instance_type_id launch = InstanceExists.instance_type_id exists_
    ∧ Launch.tenant launch = InstanceExists.tenant exists_
    ∧ Launch.rax_options launch = InstanceExists.rax_options exists_
    ∧ Launch.os_architecture launch = InstanceExists.os_architecture exists_
    ∧ Launch.os_version launch = InstanceExists.os_version exists_
    ∧ Launch.os_distro launch = InstanceExists.os_distro exists_.
Proof.
  unfold _verify_field_mismatch.
  destruct (_verify_date_field _ _ true); simpl;
    [|split; [discriminate | intros [? _]; discriminate]].
  repeat match goal with
  | |- context [text_ne ?a ?b] =>
      let H := fresh "H" in
      destruct (text_ne a b) eqn:H;
      [ split; [discriminate|];
        intros Hall; exfalso;
        assert (text_ne a b = false) as Hf
          by (apply text_ne_false; tauto);
        congruence
      | apply text_ne_false in H ]
  end.
  tauto.
Qed.

(** The only thing the matcher raises is a [FieldMismatch] on one of its
    seven fields, carrying the snapshot's value as expected and the
    candidate's as actual; it names [launched_at] only when the date
    comparison fails. *)
Lemma verify_field_mismatch_raises (exists_ : InstanceExists.t)
    (launch : launch_record) (e : exn) :
  _verify_field_mismatch exists_ launch = Raise e →
  ∃ field expected actual,
    e = FieldMismatch field expected actual
    ∧ In field ["launched_at"; "instance_type_id"; "tenant"; "rax_options";
                "os_architecture"; "os_version"; "os_distro"]
    ∧ (field = "launched_at"
       → _verify_date_field (Launch.launched_at launch)
           (InstanceExists.launched_at exists_) true = false).
Proof.
  unfold _verify_field_mismatch.
  destruct (_verify_date_field _ _ true); simpl.
  - repeat match goal with
    | |- context [text_ne ?a ?b] =>
        destruct (text_ne a b);
        [ intros [= <-]; do 3 eexists;
          split; [reflexivity|]; split; [simpl; tauto | discriminate] | ]
    end.
    discriminate.
  - intros [= <-]. do 3 eexists.
    split; [reflexivity|]. split; [simpl; tauto | reflexivity].
Qed.

(** X9.  Whatever the matcher raises is a verification condition: a
    [FieldMismatch] naming one of the seven compared fields. *)
Theorem verify_field_mismatch_only_raises_mismatch
    (exists_ : InstanceExists.t) (launch : launch_record) (e : exn) :
  _verify_field_mismatch exists_ launch = Raise e →
  is_VerificationException e = true
  ∧ ∃ field expected actual,
      e = FieldMismatch field expected actual
      ∧ In field ["launched_at"; "instance_type_id"; "tenant"; "rax_options";
                  "os_architecture"; "os_version"; "os_distro"].
Proof.
  intros H. apply verify_field_mismatch_raises in H
    as (field & expected & actual & -> & Hin & _).
  split; [reflexivity|]. eauto.
Qed.

Lemma verify_field_mismatch_only_raises_mismatch_witness :
  is_VerificationException
    (FieldMismatch "tenant" (VText (Some "tenantA")) (VText (Some "tenantB")))
  = true
  ∧ ∃ field expected actual,
      FieldMismatch "tenant" (VText (Some "tenantA")) (VText (Some "tenantB"))
      = FieldMismatch field expected actual
      ∧ In field ["launched_at"; "instance_type_id"; "tenant"; "rax_options";
                  "os_architecture"; "os_version"; "os_distro"].
Proof.
  exact (verify_field_mismatch_only_raises_mismatch (Sample.snapshot None)
           (LUsage (Sample.usage_row "tenantB")) _ eq_refl).
Defined.

(** ** The finders *)

(** X1.  [_find_launch] returns exactly the usage rows of the instance
    whose launch time lies in the calendar second of the given launch
    time; rows without a launch time are never returned. *)
Theorem find_launch_same_second (db : Db) (instance : string)
    (launched : datetime) (found : list InstanceUsage.t) :
  _find_launch db instance launched = Ok found →
  ∀ u, In u found
       ↔ In u (usage_rows db)
         ∧ InstanceUsage.instance u = instance
         ∧ ∃ t, InstanceUsage.launched_at u = Some t
                ∧ t `div` usec_per_sec = launched `div` usec_per_sec.
Proof.
  intros Hfind u. apply objects_filter_inv in Hfind as [_ ->].
  rewrite filter_In, andb_true_iff, String.eqb_eq.
  destruct (InstanceUsage.launched_at u) as [t|].
  - rewrite in_window_same_second. split.
    + intros (? & ? & ?). eauto.
    + intros (? & ? & t' & [= <-] & ?). done.
  - split; [intros (_ & _ & [=]) | intros (_ & _ & t & [=] & _)].
Qed.

Lemma find_launch_same_second_witness :
  In (Sample.usage_row "tenantA") (usage_rows (Sample.db [Sample.usage_row "tenantA"] [] []))
  ∧ InstanceUsage.instance (Sample.usage_row "tenantA") = "I1"
  ∧ ∃ t, InstanceUsage.launched_at (Sample.usage_row "tenantA") = Some t
         ∧ t `div` usec_per_sec = (Sample.T + 800000) `div` usec_per_sec.
Proof.
  exact (proj1 (find_launch_same_second
                  (Sample.db [Sample.usage_row "tenantA"] [] []) "I1"
                  (Sample.T + 800000) [Sample.usage_row "tenantA"] eq_refl
                  (Sample.usage_row "tenantA"))
           (or_introl eq_refl)).
Defined.

(** X2.  [_find_reconcile] returns exactly the reconcile rows of the
    instance whose launch time lies in the calendar second of the given
    launch time. *)
Theorem find_reconcile_same_second (db : Db) (instance : string)
    (launched : datetime) (found : list InstanceReconcile.t) :
  _find_reconcile db instance launched = Ok found →
  ∀ r, In r found
       ↔ In r (reconcile_rows db)
         ∧ InstanceReconcile.instance r = instance
         ∧ ∃ t, InstanceReconcile.launched_at r = Some t
                ∧ t `div` usec_per_sec = launched `div` usec_per_sec.
Proof.
  intros Hfind r. apply objects_filter_inv in Hfind as [_ ->].
  rewrite filter_In, andb_true_iff, String.eqb_eq.
  destruct (InstanceReconcile.launched_at r) as [t|].
  - rewrite in_window_same_second. split.
    + intros (? & ? & ?). eauto.
    + intros (? & ? & t' & [= <-] & ?). done.
  - split; [intros (_ & _ & [=]) | intros (_ & _ & t & [=] & _)].
Qed.

Lemma find_reconcile_same_second_witness :
  In (Sample.reconcile_row None)
    (reconcile_rows (Sample.db [] [] [Sample.reconcile_row None]))
  ∧ InstanceReconcile.instance (Sample.reconcile_row None) = "I1"
  ∧ ∃ t, InstanceReconcile.launched_at (Sample.reconcile_row None) = Some t
         ∧ t `div` usec_per_sec = (Sample.T - 123456) `div` usec_per_sec.
Proof.
  exact (proj1 (find_reconcile_same_second
                  (Sample.db [] [] [Sample.reconcile_row None]) "I1"
                  (Sample.T - 123456) [Sample.reconcile_row None] eq_refl
                  (Sample.reconcile_row None))
           (or_introl eq_refl)).
Defined.

Lemma filter_filter_andb {A} (p q : A → bool) (l : list A) :
  List.filter q (List.filter p l) = List.filter (λ x, p x && q x) l.
Proof.
  induction l as [|x l IH]; [reflexivity|]. simpl.
  destruct (p x); simpl; [|exact IH].
  destruct (q x); by rewrite IH.
Qed.

(** X3.  A bounded delete search is the unbounded search of the same
    instance and window, restricted to the rows deleted at or before
    the bound, in the same order; rows without a deletion time are
    dropped by any bound. *)
Theorem find_delete_bound_restricts (db : Db) (instance : string)
    (launched deleted_max : datetime) (found : list InstanceDeletes.t) :
  _find_delete db instance launched (Some deleted_max) = Ok found →
  ∃ unbounded,
    _find_delete db instance launched None = Ok unbounded
    ∧ found = List.filter
                (λ d, deleted_at__lte (dt_to_decimal deleted_max)
                        (InstanceDeletes.deleted_at d)) unbounded
    ∧ (length found ≤ length unbounded)%nat.
Proof.
  intros Hfind. apply objects_filter_inv in Hfind as [Hfault ->].
  unfold _find_delete. rewrite Hfault, objects_filter_ok.
  eexists. split; [reflexivity|].
  match goal with |- ?l = ?r ∧ _ => assert (Heq : l = r) end.
  { rewrite filter_filter_andb. apply filter_ext.
    intros d. by rewrite andb_true_r. }
  split; [exact Heq|]. rewrite Heq. apply filter_length_le.
Qed.

Lemma find_delete_bound_restricts_witness :
  ∃ unbounded,
    _find_delete
      (Sample.db [] [Sample.delete_row Sample.D;
                     Sample.delete_row (Sample.A + 1);
                     InstanceDeletes.mk "I1" (Some Sample.T) None] [])
      "I1" Sample.T None = Ok unbounded
    ∧ [Sample.delete_row Sample.D]
      = List.filter
          (λ d, deleted_at__lte (dt_to_decimal Sample.A)
                  (InstanceDeletes.deleted_at d)) unbounded
    ∧ (length [Sample.delete_row Sample.D] ≤ length unbounded)%nat.
Proof.
  exact (find_delete_bound_restricts
           (Sample.db [] [Sample.delete_row Sample.D;
                          Sample.delete_row (Sample.A + 1);
                          InstanceDeletes.mk "I1" (Some Sample.T) None] [])
           "I1" Sample.T Sample.A [Sample.delete_row Sample.D] eq_refl).
Defined.

(** ** Launch and delete verification *)

Lemma verify_date_field_falsy_r (d1 d2 : decimal) (same_second : bool) :
  truthy d2 = false → _verify_date_field d1 d2 same_second = false.
Proof.
  intros H. unfold _verify_date_field. rewrite H, andb_false_r. reflexivity.
Qed.

(** X5.  Finder and matcher agree on the launch time: for a snapshot
    launched at least one second after the epoch and without an attached
    usage, the launch found by the search never fails the launched-at
    comparison; [_verify_for_launch] cannot raise a [launched_at]
    mismatch. *)
Theorem searched_launch_agrees_on_launched_at (db : Db)
    (exist : InstanceExists.t) (launched : Z) (launch_type : string)
    (expected actual : value) :
  InstanceExists.launched_at exist = Some launched →
  usec_per_sec ≤ launched →
  InstanceExists.usage exist = None →
  _verify_for_launch db exist None launch_type
  ≠ Raise (FieldMismatch "launched_at" expected actual).
Proof.
  intros Hlaunched Hge Husage. unfold _verify_for_launch.
  rewrite Husage, Hlaunched.
  destruct (usage_fault db) as [c|] eqn:Hfault; [discriminate|].
  rewrite objects_filter_ok, bind_Ok.
  destruct (0 <? length _)%nat; [|discriminate].
  rewrite dt_from_decimal_Some, bind_Ok.
  unfold _find_launch. rewrite Hfault, objects_filter_ok, bind_Ok.
  match goal with |- context [List.filter ?p ?l] =>
    destruct (List.filter p l) as [|u [|u' rows]] eqn:Hrows
  end; simpl; try discriminate.
  intros Hraise.
  apply verify_field_mismatch_raises in Hraise
    as (field & x & y & [= <- _ _] & _ & Hdate).
  specialize (Hdate eq_refl). simpl in Hdate.
  assert (Hin : In u [u]) by (by left).
  rewrite <- Hrows, filter_In, andb_true_iff in Hin.
  destruct Hin as (_ & _ & Hwin).
  destruct (InstanceUsage.launched_at u) as [t|]; [|discriminate].
  pose proof Hwin as Hsame. apply in_window_same_second in Hsame.
  assert (0 < t ∧ 0 < launched) as [Ht Hl].
  { unfold usec_per_sec in *. Z.div_mod_to_equations. lia. }
  apply (same_second_after_epoch t launched Ht Hl) in Hsame.
  congruence.
Qed.

Lemma searched_launch_agrees_on_launched_at_witness :
  _verify_for_launch (Sample.db [Sample.usage_row "tenantB"] [] [])
    (Sample.snapshot None) None "InstanceUsage"
  ≠ Raise (FieldMismatch "launched_at" (VDecimal (Some Sample.T))
             (VDecimal (Some Sample.T))).
Proof.
  apply (searched_launch_agrees_on_launched_at
           (Sample.db [Sample.usage_row "tenantB"] [] [])
           (Sample.snapshot None) Sample.T "InstanceUsage"
           (VDecimal (Some Sample.T)) (VDecimal (Some Sample.T)) eq_refl);
    [vm_compute; discriminate | reflexivity].
Defined.

Lemma filter_nil_iff {A} (p : A → bool) (l : list A) :
  List.filter p l = [] ↔ ∀ x, In x l → p x = false.
Proof.
  induction l as [|x l IH]; simpl.
  - split; [intros _ ? [] | done].
  - destruct (p x) eqn:Hp.
    + split; [discriminate|]. intros H. specialize (H x (or_introl eq_refl)).
      congruence.
    + rewrite IH. split.
      * intros H y [<- | Hy]; [done | by apply H].
      * intros H y Hy. apply H. by right.
Qed.

(** X10.  Without an attached usage, [_verify_for_launch] tells an
    unknown instance from a missed window: if the usage table has no row
    of the instance at all it raises NotFound with the query
    [{'instance': ...}] alone; if it has rows of the instance but none
    launched in the snapshot's second it raises NotFound with the query
    that also names [launched_at]. *)
Theorem launch_not_found_queries (db : Db) (exist : InstanceExists.t)
    (launched : Z) (launch_type : string) :
  InstanceExists.launched_at exist = Some launched →
  InstanceExists.usage exist = None →
  usage_fault db = None →
  ((∀ u, In u (usage_rows db)
         → InstanceUsage.instance u ≠ InstanceExists.instance exist)
   → _verify_for_launch db exist None launch_type
     = Raise (NotFound launch_type (instance_query exist)))
  ∧ ((∃ u, In u (usage_rows db)
           ∧ InstanceUsage.instance u = InstanceExists.instance exist)
     → (∀ u t, In u (usage_rows db)
               → InstanceUsage.instance u = InstanceExists.instance exist
               → InstanceUsage.launched_at u = Some t
               → t `div` usec_per_sec ≠ launched `div` usec_per_sec)
     → _verify_for_launch db exist None launch_type
       = Raise (NotFound launch_type (launch_query exist))).
Proof.
  intros Hlaunched Husage Hfault. unfold _verify_for_launch.
  rewrite Husage, Hlaunched, Hfault, objects_filter_ok, bind_Ok. split.
  - intros Hnone.
    assert (Hnil : List.filter
              (λ u, String.eqb (InstanceUsage.instance u)
                      (InstanceExists.instance exist)) (usage_rows db) = []).
    { apply filter_nil_iff. intros u Hu. apply String.eqb_neq. by apply Hnone. }
    rewrite Hnil. reflexivity.
  - intros (u & Hu & Hinst) Hmiss.
    destruct (List.filter _ (usage_rows db)) as [|k known] eqn:Hknown.
    { exfalso. rewrite filter_nil_iff in Hknown.
      specialize (Hknown u Hu). apply String.eqb_neq in Hknown. done. }
    change (0 <? length (k :: known))%nat with true. cbv iota.
    rewrite dt_from_decimal_Some, bind_Ok.
    unfold _find_launch. rewrite Hfault, objects_filter_ok, bind_Ok.
    assert (Hnil : List.filter
              (λ u, String.eqb (InstanceUsage.instance u)
                      (InstanceExists.instance exist)
                    && in_window launched (InstanceUsage.launched_at u))
              (usage_rows db) = []).
    { apply filter_nil_iff. intros v Hv.
      apply not_true_is_false. rewrite andb_true_iff, String.eqb_eq.
      intros [Hi Hw].
      destruct (InstanceUsage.launched_at v) as [t|] eqn:Ht; [|discriminate].
      apply in_window_same_second in Hw. by apply (Hmiss v t). }
    rewrite Hnil. reflexivity.
Qed.

Lemma launch_not_found_queries_witness :
  _verify_for_launch (Sample.db [] [] []) (Sample.snapshot None) None
    "InstanceUsage"
  = Raise (NotFound "InstanceUsage" (instance_query (Sample.snapshot None)))
  ∧ _verify_for_launch
      (Sample.db [InstanceUsage.mk "I1" (Some (Sample.T + usec_per_sec))
                    None None None None None None] [] [])
      (Sample.snapshot None) None "InstanceUsage"
    = Raise (NotFound "InstanceUsage" (launch_query (Sample.snapshot None))).
Proof.
  split.
  - apply (proj1 (launch_not_found_queries (Sample.db [] [] [])
                    (Sample.snapshot None) Sample.T "InstanceUsage"
                    eq_refl eq_refl eq_refl)).
    intros u [].
  - apply (proj2 (launch_not_found_queries
                    (Sample.db [InstanceUsage.mk "I1"
                                  (Some (Sample.T + usec_per_sec))
                                  None None None None None None] [] [])
                    (Sample.snapshot None) Sample.T "InstanceUsage"
                    eq_refl eq_refl eq_refl)).
    + eexists. split; [left; reflexivity | reflexivity].
    + intros u t [<- | []] _ [= <-]. vm_compute. discriminate.
Defined.

(** X12.  When a delete record is resolved without a search (passed in,
    or attached to the snapshot) and the snapshot has no deleted-at (or a
    zero one), delete verification always fails with a [FieldMismatch]
    on [launched_at] or [deleted_at]: the record is compared even though
    the snapshot claims no deletion. *)
Theorem delete_record_without_deleted_at (db : Db) (exist : InstanceExists.t)
    (delete : option delete_record) (delete_type : string) :
  truthy (InstanceExists.deleted_at exist) = false →
  delete ≠ None ∨ InstanceExists.delete exist ≠ None →
  ∃ field expected actual,
    _verify_for_delete db exist delete delete_type
    = Raise (FieldMismatch field expected actual)
    ∧ (field = "launched_at" ∨ field = "deleted_at").
Proof.
  intros Hfalsy Hsome. unfold _verify_for_delete.
  assert (∃ d, match delete, InstanceExists.delete exist with
               | Some d, _ => Ok (Some d)
               | None, Some d => Ok (Some (DDelete d))
               | None, None =>
                   (if truthy (InstanceExists.deleted_at exist)
                    then _ else _) : result (option delete_record)
               end = Ok (Some d)) as [d ->].
  { destruct delete as [d|]; [by exists d|].
    destruct (InstanceExists.delete exist) as [d|]; [by eexists|].
    destruct Hsome; done. }
  rewrite bind_Ok.
  destruct (_verify_date_field (Delete.launched_at d) _ true); simpl.
  - rewrite verify_date_field_falsy_r by exact Hfalsy. simpl.
    do 3 eexists. split; [reflexivity | by right].
  - do 3 eexists. split; [reflexivity | by left].
Qed.

Lemma delete_record_without_deleted_at_witness :
  ∃ field expected actual,
    _verify_for_delete (Sample.db [] [] []) (Sample.snapshot None)
      (Some (DReconcile (Sample.reconcile_row None))) "InstanceReconcile"
    = Raise (FieldMismatch field expected actual)
    ∧ (field = "launched_at" ∨ field = "deleted_at").
Proof.
  apply (delete_record_without_deleted_at (Sample.db [] [] [])
           (Sample.snapshot None)
           (Some (DReconcile (Sample.reconcile_row None)))
           "InstanceReconcile" eq_refl).
  left. discriminate.
Defined.

(** ** The fallback and the engine *)

Lemma bind_always_raises {A B} (m : result A) (f : A → result B) :
  (∀ a, ∃ e, f a = Raise e) → ∃ e, (m ≫= f) = Raise e.
Proof.
  intros Hf. destruct m as [a|e]; [apply Hf | by exists e].
Qed.

(** X13.  A snapshot without a deleted-at (or with a zero one) can never
    pass the reconciliation fallback, whatever the store holds: the
    reconcile record is also used as the delete record, and its
    deleted-at is compared with the snapshot's missing one. *)
Theorem reconciled_data_needs_deleted_at (db : Db) (exist : InstanceExists.t)
    (ex : exn) :
  truthy (InstanceExists.deleted_at exist) = false →
  ∃ e, _verify_with_reconciled_data db exist ex = Raise e.
Proof.
  intros Hfalsy. unfold _verify_with_reconciled_data.
  apply bind_always_raises. intros _.
  apply bind_always_raises. intros reconcile.
  apply bind_always_raises. intros _.
  unfold _verify_for_delete. rewrite bind_Ok.
  destruct (_verify_date_field (Delete.launched_at (DReconcile reconcile)) _
              true); simpl; [|eauto].
  rewrite verify_date_field_falsy_r by exact Hfalsy. simpl. eauto.
Qed.

Lemma reconciled_data_needs_deleted_at_witness :
  ∃ e, _verify_with_reconciled_data
         (Sample.db [] [] [Sample.reconcile_row None])
         (Sample.snapshot None) (OtherException "") = Raise e.
Proof.
  exact (reconciled_data_needs_deleted_at
           (Sample.db [] [] [Sample.reconcile_row None])
           (Sample.snapshot None) (OtherException "") eq_refl).
Defined.

Section EngineExtras.

Variable exn_str : exn → string.

(** The two shapes a call of [_verify] can take. *)
Lemma verify_outcome (exist : InstanceExists.t) (db : Db) :
  (_verify exn_str exist db
   = (save (marked VERIFIED (InstanceExists.fail_reason exist) exist) db,
      Ok (true, marked VERIFIED (InstanceExists.fail_reason exist) exist))
   ∧ (fast_path_checks db exist = Ok ()
      ∨ ∃ e, fast_path_checks db exist = Raise e
             ∧ is_VerificationException e = true
             ∧ _verify_with_reconciled_data db exist e = Ok ()))
  ∨ (∃ r, _verify exn_str exist db
          = (save (marked FAILED r exist) db, Ok (false, marked FAILED r exist))
          ∧ ∃ e, fast_path_checks db exist = Raise e
                 ∧ (is_VerificationException e = true
                    → ∃ rec_e,
                        _verify_with_reconciled_data db exist e = Raise rec_e)).
Proof.
  rewrite verify_unfold.
  destruct (fast_path_checks db exist) as [[]|e] eqn:Hfast.
  - left. split; [reflexivity | by left].
  - destruct (is_VerificationException e) eqn:Hver.
    + destruct (_verify_with_reconciled_data db exist e) as [[]|rec_e] eqn:Hrec.
      * left. split; [by apply attempt_reconciled_verify_success|].
        right. exists e. done.
      * right.
        destruct (attempt_reconciled_verify_failure exn_str _ _ _ _ Hrec)
          as (exist' & Hmark & ->).
        destruct (mark_exist_failed_any exist
                    (Some (if is_NotFound rec_e then exn_str e
                           else if is_VerificationException rec_e
                                then exn_str rec_e
                           else class_name_of rec_e)) db) as [r Hr].
        rewrite Hr in Hmark. injection Hmark as _ <-.
        exists r. split; [reflexivity|]. exists e. split; [done|]. eauto.
    + right.
      destruct (mark_exist_failed_any exist (Some (class_name_of e)) db)
        as [r ->].
      exists r. split; [reflexivity|]. exists e. split; [done|].
      intros ?. congruence.
Qed.

End EngineExtras.

(** X14.  When every save succeeds, the flag [_verify] returns and the
    status it stores agree: [verified] is true exactly when the snapshot
    is left VERIFIED (its fail reason untouched) and false exactly when
    it is left FAILED; the snapshot is never left RECONCILED. *)
Theorem verify_flag_matches_status_when_saved (exn_str : exn → string)
    (exist : InstanceExists.t) (w : Unreliable.World) :
  writes_succeed w →
  ∃ verified exist',
    (Unreliable._verify exn_str exist w).2 = Ok (verified, exist')
    ∧ persisted (Unreliable.store (Unreliable._verify exn_str exist w).1)
        exist'
    ∧ (verified = true ↔ InstanceExists.status exist' = VERIFIED)
    ∧ (verified = false ↔ InstanceExists.status exist' = FAILED)
    ∧ (verified = true
       → InstanceExists.fail_reason exist' = InstanceExists.fail_reason exist)
    ∧ InstanceExists.status exist' ≠ RECONCILED.
Proof.
  intros Hok.
  destruct (unreliable_verify_outcome exn_str exist w)
    as [(verified & s & reason & rest & -> & _ & Hagree)
       | (c & rest & _ & Hin)]; [|by destruct (Hok c)].
  exists verified, (marked s reason exist). simpl.
  split; [reflexivity|]. split; [apply save_persisted|].
  destruct (Hagree Hok) as [(-> & -> & ->) | (-> & ->)];
    repeat split; done.
Qed.

Lemma verify_flag_matches_status_when_saved_witness :
  ∃ verified exist',
    (Unreliable._verify Sample.message (Sample.snapshot None)
       (Unreliable.mkWorld (Sample.db [Sample.usage_row "tenantA"] [] []) [])).2
    = Ok (verified, exist')
    ∧ persisted
        (Unreliable.store
           (Unreliable._verify Sample.message (Sample.snapshot None)
              (Unreliable.mkWorld
                 (Sample.db [Sample.usage_row "tenantA"] [] []) [])).1)
        exist'
    ∧ (verified = true ↔ InstanceExists.status exist' = VERIFIED)
    ∧ (verified = false ↔ InstanceExists.status exist' = FAILED)
    ∧ (verified = true
       → InstanceExists.fail_reason exist'
         = InstanceExists.fail_reason (Sample.snapshot None))
    ∧ InstanceExists.status exist' ≠ RECONCILED.
Proof.
  apply (verify_flag_matches_status_when_saved Sample.message
           (Sample.snapshot None)
           (Unreliable.mkWorld (Sample.db [Sample.usage_row "tenantA"] [] [])
              [])).
  intros c [].
Defined.


(** X16.  [_verify] writes one row and nothing else: the usage, delete
    and reconcile tables and the availability of their queries are as
    before, and every other snapshot row is untouched. *)
Theorem verify_frame (exn_str : exn → string) (exist : InstanceExists.t)
    (db : Db) :
  usage_rows (_verify exn_str exist db).1 = usage_rows db
  ∧ delete_rows (_verify exn_str exist db).1 = delete_rows db
  ∧ reconcile_rows (_verify exn_str exist db).1 = reconcile_rows db
  ∧ usage_fault (_verify exn_str exist db).1 = usage_fault db
  ∧ delete_fault (_verify exn_str exist db).1 = delete_fault db
  ∧ reconcile_fault (_verify exn_str exist db).1 = reconcile_fault db
  ∧ ∀ i, i ≠ InstanceExists.id exist
         → exists_rows (_verify exn_str exist db).1 !! i
           = exists_rows db !! i.
Proof.
  destruct (verify_outcome exn_str exist db) as [[-> _] | (r & -> & _)];
    simpl; repeat split; try done; intros i Hi; by apply lookup_insert_ne.
Qed.







(** ** Marking, again *)

(** X20.  Marking VERIFIED a snapshot that is already VERIFIED and
    stored is a no-op: the store and the snapshot, fail reason included,
    are exactly as before. *)
Theorem mark_exist_verified_noop (exist : InstanceExists.t) (db : Db) :
  InstanceExists.status exist = VERIFIED →
  persisted db exist →
  _mark_exist_verified exist false None db = (db, exist).
Proof.
  intros Hstatus Hstored. unfold _mark_exist_verified, save. simpl.
  assert (Hsame : InstanceExists.set_status VERIFIED exist = exist).
  { destruct exist. simpl in Hstatus. subst. reflexivity. }
  rewrite Hsame. rewrite insert_id by exact Hstored.
  by destruct db.
Qed.

Lemma mark_exist_verified_noop_witness :
  _mark_exist_verified (marked VERIFIED None (Sample.snapshot None)) false None
    (save (marked VERIFIED None (Sample.snapshot None)) (Sample.db [] [] []))
  = (save (marked VERIFIED None (Sample.snapshot None)) (Sample.db [] [] []),
     marked VERIFIED None (Sample.snapshot None)).
Proof.
  apply (mark_exist_verified_noop
           (marked VERIFIED None (Sample.snapshot None))
           (save (marked VERIFIED None (Sample.snapshot None))
              (Sample.db [] [] []))
           eq_refl).
  apply save_persisted.
Defined.

(** X21.  A failure without a message never erases an earlier one:
    [_mark_exist_failed] with no reason or with the empty string sets
    FAILED and keeps the fail reason the snapshot had, while a non-empty
    reason replaces it. *)
Theorem mark_exist_failed_keeps_reason (exist : InstanceExists.t) (db : Db)
    (reason : string) :
  _mark_exist_failed exist (Some "") db = _mark_exist_failed exist None db
  ∧ _mark_exist_failed exist None db
    = (save (marked FAILED (InstanceExists.fail_reason exist) exist) db,
       marked FAILED (InstanceExists.fail_reason exist) exist)
  ∧ (reason ≠ ""
     → InstanceExists.fail_reason
         (_mark_exist_failed
            (_mark_exist_failed exist (Some reason) db).2 None
            (_mark_exist_failed exist (Some reason) db).1).2
       = Some reason).
Proof.
  split; [reflexivity|]. split; [reflexivity|].
  intros Hne. by rewrite mark_exist_failed_reason.
Qed.

(** ** Selecting snapshots *)

Lemma by_id_total : Total by_id.
Proof. intros a b. unfold by_id. lia. Qed.

Lemma by_id_trans : Transitive by_id.
Proof. intros a b c. unfold by_id. lia. Qed.

Lemma list_exists_params_spec ending_max status (row : Z * InstanceExists.t) :
  list_exists_params ending_max status row = true
  ↔ (∀ m, ending_max = Some m → InstanceExists.audit_period_ending row.2 ≤ m)
    ∧ (∀ s, status = Some s → InstanceExists.status row.2 = s).
Proof.
  unfold list_exists_params, dt_to_decimal.
  rewrite andb_true_iff.
  destruct ending_max as [m|], status as [s|];
    rewrite ?Z.leb_le, ?bool_decide_eq_true; split.
  - intros [? ?]. split; [by intros ? [= <-] | by intros ? [= <-]].
  - intros [H1 H2]. split; [by apply H1 | by apply H2].
  - intros [? _]. split; [by intros ? [= <-] | done].
  - intros [H1 _]. split; [by apply H1 | done].
  - intros [_ ?]. split; [done | by intros ? [= <-]].
  - intros [_ H2]. split; [done | by apply H2].
  - done.
  - done.
Qed.

(** X22.  [_list_exists] returns exactly the stored snapshots whose
    audit period ends at or before [ending_max] (when one is given) and
    whose status is the requested one (when one is given); with neither
    argument it returns every stored snapshot. *)
Theorem list_exists_members (db : Db) (ending_max : option datetime)
    (status : option Status) (exist : InstanceExists.t) :
  exist ∈ _list_exists db ending_max status
  ↔ ∃ i, exists_rows db !! i = Some exist
         ∧ (∀ m, ending_max = Some m
                 → InstanceExists.audit_period_ending exist ≤ m)
         ∧ (∀ s, status = Some s → InstanceExists.status exist = s).
Proof.
  unfold _list_exists. rewrite list_elem_of_fmap. split.
  - intros ([i e] & -> & Hin).
    rewrite merge_sort_Permutation in Hin.
    apply list_elem_of_In, filter_In in Hin as [Hin Hp].
    apply list_elem_of_In, elem_of_map_to_list in Hin.
    apply list_exists_params_spec in Hp. exists i. done.
  - intros (i & Hi & Hm & Hs). exists (i, exist). split; [reflexivity|].
    rewrite merge_sort_Permutation.
    apply list_elem_of_In, filter_In. split.
    + by apply list_elem_of_In, elem_of_map_to_list.
    + by apply list_exists_params_spec.
Qed.

Lemma NoDup_fst_filter {A B} (p : A * B → bool) (l : list (A * B)) :
  NoDup l.*1 → NoDup (List.filter p l).*1.
Proof.
  induction l as [|x l IH]; simpl; [done|].
  rewrite NoDup_cons. intros [Hx Hl].
  destruct (p x); simpl; [|by apply IH].
  apply NoDup_cons. split; [|by apply IH].
  intros Hin. apply Hx.
  apply list_elem_of_fmap in Hin as (y & -> & Hy).
  apply list_elem_of_fmap. exists y. split; [done|].
  apply list_elem_of_In, filter_In in Hy as [Hy _]. by apply list_elem_of_In.
Qed.

Lemma sorted_rows_strict (l : list (Z * InstanceExists.t)) :
  StronglySorted by_id l →
  NoDup l.*1 →
  (∀ row, row ∈ l → InstanceExists.id row.2 = row.1) →
  StronglySorted
    (λ a b, InstanceExists.id a < InstanceExists.id b) (snd <$> l).
Proof.
  induction 1 as [|row l Hsorted IH Hall]; simpl; [constructor|].
  rewrite NoDup_cons. intros [Hfresh Hnodup] Hkeys.
  constructor.
  - apply IH; [done|]. intros r Hr. apply Hkeys. by right.
  - rewrite Forall_fmap. rewrite Forall_forall in Hall.
    apply Forall_forall. intros r Hr. simpl.
    rewrite (Hkeys row) by left. rewrite (Hkeys r) by (by right).
    specialize (Hall r Hr). unfold by_id in Hall.
    assert (row.1 ≠ r.1).
    { intros Heq. apply Hfresh. rewrite Heq.
      apply list_elem_of_fmap. by exists r. }
    lia.
Qed.

(** X23.  On a store whose snapshots carry their primary key as [id],
    [_list_exists] returns the snapshots in strictly increasing order of
    [id]; no snapshot is returned twice. *)
Theorem list_exists_ordered (db : Db) (ending_max : option datetime)
    (status : option Status) :
  well_keyed db →
  StronglySorted (λ a b, InstanceExists.id a < InstanceExists.id b)
    (_list_exists db ending_max status).
Proof.
  intros Hkeys. unfold _list_exists.
  apply sorted_rows_strict.
  - apply (@StronglySorted_merge_sort _ by_id _ by_id_trans by_id_total).
  - rewrite merge_sort_Permutation.
    apply NoDup_fst_filter, NoDup_fst_map_to_list.
  - intros [i e] Hin. rewrite merge_sort_Permutation in Hin.
    apply list_elem_of_In, filter_In in Hin as [Hin _].
    apply list_elem_of_In, elem_of_map_to_list in Hin. simpl.
    by apply Hkeys.
Qed.

Lemma save_well_keyed (exist : InstanceExists.t) (db : Db) :
  well_keyed db → well_keyed (save exist db).
Proof.
  intros Hkeys i e. unfold save. simpl.
  rewrite lookup_insert. case_decide.
  - intros [= <-]. done.
  - apply Hkeys.
Qed.

Lemma list_exists_ordered_witness :
  StronglySorted (λ a b, InstanceExists.id a < InstanceExists.id b)
    (_list_exists
       (save (InstanceExists.mk 3 "I2" (Some Sample.T) None Sample.A None None
                None None None None PENDING None None None JNull)
          (save (Sample.snapshot None)
             (mkDb [] [] [] ∅ None None None)))
       (Some Sample.A) None).
Proof.
  apply (list_exists_ordered
           (save (InstanceExists.mk 3 "I2" (Some Sample.T) None Sample.A None
                    None None None None None PENDING None None None JNull)
              (save (Sample.snapshot None)
                 (mkDb [] [] [] ∅ None None None)))
           (Some Sample.A) None).
  do 2 apply save_well_keyed. intros i e H. simpl in H.
  rewrite lookup_empty in H. discriminate.
Defined.

Example list_exists_pending_by_id :
  _list_exists
    (save (InstanceExists.mk 3 "I2" (Some Sample.T) None Sample.A None None
             None None None None PENDING None None None JNull)
       (save (InstanceExists.mk 9 "I3" (Some Sample.T) None (Sample.A + 1)
                None None None None None None PENDING None None None JNull)
          (save (InstanceExists.mk 5 "I4" (Some Sample.T) None Sample.D
                   None None None None None None PENDING None None None JNull)
             (save (Sample.snapshot None)
                (mkDb [] [] [] ∅ None None None)))))
    (Some Sample.A) (Some PENDING)
  = [InstanceExists.mk 3 "I2" (Some Sample.T) None Sample.A None None
       None None None None PENDING None None None JNull;
     InstanceExists.mk 5 "I4" (Some Sample.T) None Sample.D
       None None None None None None PENDING None None None JNull].
Proof. vm_compute. reflexivity. Qed.

Lemma mark_exist_failed_keeps_reason_witness :
  InstanceExists.fail_reason
    (_mark_exist_failed
       (_mark_exist_failed (Sample.snapshot None) (Some "NotFound")
          (Sample.db [] [] [])).2 None
       (_mark_exist_failed (Sample.snapshot None) (Some "NotFound")
          (Sample.db [] [] [])).1).2
  = Some "NotFound".
Proof.
  apply (proj2 (proj2 (mark_exist_failed_keeps_reason (Sample.snapshot None)
                         (Sample.db [] [] []) "NotFound"))).
  discriminate.
Defined.

(** ** Dictionary comparisons *)

Section SimpleFieldProperties.

Context {V : Type} `{EqDecision V}.

Lemma default_field_idem (field1 : string) (field2 : option string) :
  default_field field1 (Some (default_field field1 field2))
  = default_field field1 field2.
Proof.
  unfold default_field. destruct field2 as [f|].
  - destruct (String.eqb f "") eqn:Hf.
    + by destruct (String.eqb field1 "").
    + by rewrite Hf.
  - by destruct (String.eqb field1 "").
Qed.

Lemma dict_get_default_not_None (d : gmap string (option V)) (field : string) :
  dict_get_default d field ≠ None ↔ ∃ v, d !! field = Some (Some v).
Proof.
  unfold dict_get_default. destruct (d !! field) as [[v|]|]; split;
    try done; try (intros [? [=]]); eauto.
Qed.

(** X24.  [_verify_simple_field] never raises, although it subscripts
    both dictionaries: it answers true exactly when both hold a value
    other than [None] under their field and the two values are equal.  A
    missing key and a stored [None] are alike, and an omitted or empty
    second field name stands for the first. *)
Theorem verify_simple_field_spec (d1 d2 : gmap string (option V))
    (field1 : string) (field2 : option string) :
  (∃ b, _verify_simple_field d1 d2 field1 field2 = Ok b
        ∧ (b = true
           ↔ ∃ v, d1 !! field1 = Some (Some v)
                  ∧ d2 !! default_field field1 field2 = Some (Some v)))
  ∧ _verify_simple_field d1 d2 field1 (Some "")
    = _verify_simple_field d1 d2 field1 None.
Proof.
  split; [|reflexivity].
  unfold _verify_simple_field, _has_field.
  rewrite default_field_idem.
  set (f2 := default_field field1 field2).
  destruct (bool_decide (dict_get_default d1 field1 ≠ None)) eqn:H1.
  - destruct (bool_decide (dict_get_default d2 f2 ≠ None)) eqn:H2.
    + apply bool_decide_eq_true, dict_get_default_not_None in H1 as [v1 H1].
      apply bool_decide_eq_true, dict_get_default_not_None in H2 as [v2 H2].
      simpl. unfold dict_subscript. rewrite H1, H2, !bind_Ok.
      case_bool_decide as Hne.
      * exists false. split; [reflexivity|]. split; [discriminate|].
        intros (v & [= ->] & [= ->]). done.
      * exists true. split; [reflexivity|]. split; [|done].
        intros _. exists v1. split; [done|].
        destruct (decide (Some v1 = Some v2)) as [[= ->] | Hd]; [done|].
        by destruct Hne.
    + apply bool_decide_eq_false in H2. simpl.
      exists false. split; [reflexivity|]. split; [discriminate|].
      intros (v & _ & Hv). destruct H2.
      apply dict_get_default_not_None. eauto.
  - apply bool_decide_eq_false in H1. simpl.
    exists false. split; [reflexivity|]. split; [discriminate|].
    intros (v & Hv & _). destruct H1.
    apply dict_get_default_not_None. eauto.
Qed.

End SimpleFieldProperties.

Example simple_field_none_is_missing :
  _verify_simple_field
    ({[ "tenant" := None ]} : gmap string (option string))
    ({[ "tenant" := None ]} : gmap string (option string)) "tenant" None
  = Ok false.
Proof. reflexivity. Qed.

Example simple_field_other_name :
  _verify_simple_field
    ({[ "tenant" := Some "t1" ]} : gmap string (option string))
    ({[ "tenant_id" := Some "t1" ]} : gmap string (option string))
    "tenant" (Some "tenant_id")
  = Ok true.
Proof. reflexivity. Qed.

(** ** Notification, again *)

(** X26.  [send_verified_notification] succeeds exactly when the raw
    message is a list whose second element is a dictionary that has a
    [message_id]; a raw message of any other shape makes it raise,
    whether or not routing keys are configured. *)
Theorem send_verified_notification_succeeds_iff (exist : InstanceExists.t)
    (conn : connection) (exchange : Exchange.t)
    (routing_keys : option (list string)) (uuid4 : string) :
  (send_verified_notification exist conn exchange routing_keys uuid4).2
  = Ok ()
  ↔ ∃ (items : list json) (body : gmap string json),
      InstanceExists.raw exist = JList items
      ∧ items !! 1%nat = Some (JDict body)
      ∧ is_Some (body !! "message_id").
Proof.
  unfold send_verified_notification.
  destruct (InstanceExists.raw exist) as [| | |text|items|object].
  1-3: split; [discriminate | intros (? & ? & [=] & _)].
  - assert (Hnone : json_index (JStr text) 1 ≫= as_dict
                    = Raise (OtherException "IndexError")
                    ∨ json_index (JStr text) 1 ≫= as_dict
                      = Raise (OtherException "TypeError")).
    { unfold json_index. destruct (String.get 1 text); [by right | by left]. }
    destruct Hnone as [-> | ->]; rewrite bind_Raise; simpl;
      (split; [discriminate | intros (? & ? & [=] & _)]).
  - unfold json_index.
    destruct (items !! 1%nat) as [second|] eqn:Hsecond; cbv iota.
    2:{ rewrite !bind_Raise. simpl. split; [discriminate|].
        intros (? & ? & [= <-] & Hs & _). congruence. }
    rewrite bind_Ok.
    destruct second as [| | | | |body];
      try (unfold as_dict; rewrite bind_Raise; simpl; split;
           [discriminate
           | intros (? & ? & [= <-] & Hs & _); rewrite Hsecond in Hs;
             discriminate]).
    unfold as_dict. rewrite bind_Ok.
    unfold dict_get. rewrite lookup_insert_ne by done.
    destruct (body !! "message_id") as [message_id|] eqn:Hid.
    + rewrite bind_Ok. split.
      * intros _. exists items, body. by rewrite Hid.
      * intros _. destruct routing_keys as [keys|]; [reflexivity|].
        destruct items as [|first items]; [discriminate|]. reflexivity.
    + rewrite bind_Raise. simpl. split; [discriminate|].
      intros (items' & body' & [= <-] & Hs & [? Hsome]).
      rewrite Hsecond in Hs. injection Hs as <-. congruence.
  - split; [discriminate | intros (? & ? & [=] & _)].
Qed.

(** X4.  When every save succeeds, a snapshot that [_verify] leaves
    FAILED is not announced: the completion callback publishes nothing
    for its outcome, and it reaches [send_verified_notification] only
    with a snapshot left VERIFIED. *)
Theorem failed_outcome_not_notified_when_saved (exn_str : exn → string)
    (exist : InstanceExists.t) (w : Unreliable.World) (rabbit : rabbit_config)
    (exchange : Exchange.t) (conn : connection) (uuid4 : string) :
  writes_succeed w →
  ∃ outcome,
    (Unreliable._verify exn_str exist w).2 = Ok outcome
    ∧ (InstanceExists.status outcome.2 = FAILED
       → Verifier.callback rabbit exchange outcome conn uuid4 = (conn, Ok ()))
    ∧ (InstanceExists.status outcome.2 = VERIFIED
       → Verifier.callback rabbit exchange outcome conn uuid4
         = send_verified_notification outcome.2 conn exchange
             (routing_keys rabbit) uuid4).
Proof.
  intros Hok.
  destruct (unreliable_verify_outcome exn_str exist w)
    as [(verified & s & reason & rest & -> & _ & Hagree)
       | (c & rest & _ & Hin)]; [|by destruct (Hok c)].
  eexists. split; [reflexivity|]. simpl.
  destruct (Hagree Hok) as [(-> & -> & ->) | (-> & ->)];
    split; (discriminate || reflexivity).
Qed.

Lemma failed_outcome_not_notified_when_saved_witness :
  ∃ outcome,
    (Unreliable._verify Sample.message (Sample.snapshot None)
       (Unreliable.mkWorld (Sample.db [Sample.usage_row "tenantB"] [] [])
          [None; None])).2
    = Ok outcome
    ∧ (InstanceExists.status outcome.2 = FAILED
       → Verifier.callback (mkRabbit "stacktach" true None)
           (Exchange.mk "stacktach" "topic" false false true) outcome []
           "0b6e"
         = ([], Ok ()))
    ∧ (InstanceExists.status outcome.2 = VERIFIED
       → Verifier.callback (mkRabbit "stacktach" true None)
           (Exchange.mk "stacktach" "topic" false false true) outcome []
           "0b6e"
         = send_verified_notification outcome.2 []
             (Exchange.mk "stacktach" "topic" false false true)
             (routing_keys (mkRabbit "stacktach" true None)) "0b6e").
Proof.
  apply (failed_outcome_not_notified_when_saved Sample.message
           (Sample.snapshot None)
           (Unreliable.mkWorld (Sample.db [Sample.usage_row "tenantB"] [] [])
              [None; None])
           (mkRabbit "stacktach" true None)
           (Exchange.mk "stacktach" "topic" false false true) [] "0b6e").
  intros c [[=] | [[=] | []]].
Defined.

(** X31.  If the save of the VERIFIED marking raises and the next save
    succeeds, [_verify] still returns [verified = True]: the handler
    marks the snapshot FAILED with the class name of the exception as
    fail reason, that version is stored, and the completion callback
    then sends the notification for it. *)
Theorem verify_save_raises_once (exn_str : exn → string)
    (exist : InstanceExists.t) (w : Unreliable.World) (class_name : string)
    (rest : list (option string)) (rabbit : rabbit_config)
    (exchange : Exchange.t) (conn : connection) (uuid4 : string) :
  fast_path_checks (Unreliable.store w) exist = Ok () →
  Unreliable.writes w = Some class_name :: None :: rest →
  class_name ≠ "" →
  Unreliable._verify exn_str exist w
  = (Unreliable.mkWorld
       (save (marked FAILED (Some class_name) exist) (Unreliable.store w))
       rest,
     Ok (true, marked FAILED (Some class_name) exist))
  ∧ Verifier.callback rabbit exchange
      (true, marked FAILED (Some class_name) exist) conn uuid4
    = send_verified_notification (marked FAILED (Some class_name) exist)
        conn exchange (routing_keys rabbit) uuid4.
Proof.
  intros Hfast Hwrites Hne. split; [|reflexivity].
  unfold Unreliable._verify. rewrite Hfast.
  unfold Unreliable._mark_exist_verified, Unreliable._mark_exist_failed,
    Unreliable.save.
  rewrite Hwrites. simpl.
  apply String.eqb_neq in Hne. rewrite Hne. reflexivity.
Qed.

Lemma verify_save_raises_once_witness :
  Unreliable._verify Sample.message (Sample.snapshot None)
    (Unreliable.mkWorld (Sample.db [Sample.usage_row "tenantA"] [] [])
       [Some "OperationalError"; None])
  = (Unreliable.mkWorld
       (save (marked FAILED (Some "OperationalError") (Sample.snapshot None))
          (Sample.db [Sample.usage_row "tenantA"] [] []))
       [],
     Ok (true, marked FAILED (Some "OperationalError") (Sample.snapshot None))).
Proof.
  apply (proj1 (verify_save_raises_once Sample.message (Sample.snapshot None)
                  (Unreliable.mkWorld
                     (Sample.db [Sample.usage_row "tenantA"] [] [])
                     [Some "OperationalError"; None])
                  "OperationalError" [] (mkRabbit "stacktach" true None)
                  (Exchange.mk "stacktach" "topic" false false true) [] "0b6e"
                  eq_refl eq_refl ltac:(discriminate))).
Defined.

(** ** Draining the pool *)

Lemma clean_results_loop_spec (reconcile : bool) (rs pending : list async_result)
    (finished succeeded : nat) (failed : list InstanceExists.t) :
  clean_results_loop reconcile rs pending finished succeeded failed
  = ((pending ++ List.filter (λ r, negb (ready r)) rs)%list,
     (finished + length (List.filter ready rs))%nat,
     (succeeded + length (List.filter successful rs))%nat,
     (failed ++ (if reconcile then rs ≫= unverified else []))%list).
Proof.
  revert pending finished succeeded failed.
  induction rs as [|r rs IH]; intros pending finished succeeded failed.
  - simpl. rewrite !app_nil_r, !Nat.add_0_r.
    by destruct reconcile; rewrite ?app_nil_r.
  - destruct r as [|[[verified exists_]|e]]; simpl; rewrite IH.
    + by rewrite <- app_assoc.
    + rewrite <- !Nat.add_succ_comm.
      destruct reconcile, verified; simpl; rewrite <- ?app_assoc; reflexivity.
    + by rewrite <- !Nat.add_succ_comm.
Qed.

Lemma filter_partition_length {A} (p : A → bool) (l : list A) :
  (length (List.filter p l) + length (List.filter (λ x, negb (p x)) l))%nat
  = length l.
Proof.
  induction l as [|x l IH]; [reflexivity|]. simpl.
  destruct (p x); simpl; lia.
Qed.

Lemma successful_le_ready (rs : list async_result) :
  (length (List.filter successful rs) ≤ length (List.filter ready rs))%nat.
Proof.
  induction rs as [|[|[?|?]] rs IH]; simpl; lia.
Qed.

Lemma clean_results_unfold (self : verifier) :
  clean_results self
  = (mkVerifier (reconcile self)
       (List.filter (λ r, negb (ready r)) (results self))
       (failed self
        ++ (if reconcile self then results self ≫= unverified else []))
       (reconciler self),
     (length (List.filter (λ r, negb (ready r)) (results self)),
      length (List.filter successful (results self)),
      (length (List.filter ready (results self))
       - length (List.filter successful (results self)))%nat)).
Proof.
  unfold clean_results. rewrite clean_results_loop_spec. reflexivity.
Qed.

(** X27.  [clean_results] accounts for every result exactly once: the
    three numbers it returns are the results not yet ready, the tasks
    that returned, and the tasks that raised, and they add up to the
    number of results it was given; afterwards the verifier holds
    exactly the results that were not ready, in their original order. *)
Theorem clean_results_counts (self : verifier) :
  ∃ pending succeeded errored,
    (clean_results self).2 = (pending, succeeded, errored)
    ∧ (pending + succeeded + errored)%nat = length (results self)
    ∧ pending = length (results (clean_results self).1)
    ∧ succeeded = length (List.filter successful (results self))
    ∧ errored
      = length (List.filter (λ r, ready r && negb (successful r))
                  (results self))
    ∧ results (clean_results self).1
      = List.filter (λ r, negb (ready r)) (results self).
Proof.
  rewrite clean_results_unfold. simpl. do 3 eexists.
  split; [reflexivity|].
  pose proof (filter_partition_length ready (results self)) as Hpart.
  pose proof (successful_le_ready (results self)) as Hle.
  assert (Herr : length (List.filter (λ r, ready r && negb (successful r))
                           (results self))
                 = (length (List.filter ready (results self))
                    - length (List.filter successful (results self)))%nat).
  { clear. induction (results self) as [|[|[?|?]] rs IH]; simpl; [done..| |].
    - pose proof (successful_le_ready rs). lia.
    - pose proof (successful_le_ready rs). lia. }
  repeat split; try done; lia.
Qed.

(** X28.  [clean_results] queues for the reconciler exactly the
    snapshots of the finished tasks that returned [verified = False],
    in order and after those already queued, and only in reconciliation
    mode; otherwise the queue is unchanged.  Tasks that raised and tasks
    not yet ready add nothing. *)
Theorem clean_results_failed (self : verifier) :
  failed (clean_results self).1
  = (failed self
     ++ (if reconcile self then results self ≫= unverified else []))%list
  ∧ reconcile (clean_results self).1 = reconcile self
  ∧ reconciler (clean_results self).1 = reconciler self.
Proof. rewrite clean_results_unfold. done. Qed.

Lemma filter_idem {A} (p : A → bool) (l : list A) :
  List.filter p (List.filter p l) = List.filter p l.
Proof.
  induction l as [|x l IH]; [reflexivity|]. simpl.
  destruct (p x) eqn:Hp; simpl; rewrite ?Hp, IH; reflexivity.
Qed.

Lemma filter_none {A} (p : A → bool) (l : list A) :
  (∀ x, In x l → p x = false) → List.filter p l = [].
Proof. apply filter_nil_iff. Qed.

(** X29.  Draining again when no task has finished in between changes
    nothing: the second [clean_results] returns the same number of
    pending results, zero successes and zero errors, and queues nothing
    more for the reconciler. *)
Theorem clean_results_twice (self : verifier) :
  clean_results (clean_results self).1
  = ((clean_results self).1,
     (length (results (clean_results self).1), 0%nat, 0%nat)).
Proof.
  rewrite (clean_results_unfold (clean_results self).1).
  rewrite clean_results_unfold. simpl.
  set (pending := List.filter (λ r, negb (ready r)) (results self)).
  assert (Hnot : ∀ r, In r pending → ready r = false).
  { intros r Hr. apply filter_In in Hr as [_ Hr]. by apply negb_true_iff. }
  assert (Hp : List.filter (λ r, negb (ready r)) pending = pending)
    by apply filter_idem.
  assert (Hr : List.filter ready pending = []) by (by apply filter_none).
  assert (Hs : List.filter successful pending = []).
  { apply filter_none. intros r Hin. specialize (Hnot r Hin).
    by destruct r as [|[?|?]]. }
  assert (Hu : pending ≫= unverified = []).
  { clear Hp Hr Hs. induction pending as [|r rs IH]; [reflexivity|].
    rewrite bind_cons, IH by (intros; apply Hnot; by right).
    specialize (Hnot r (or_introl eq_refl)). by destruct r. }
  rewrite Hp, Hr, Hs, Hu. simpl.
  by destruct (reconcile self); rewrite app_nil_r.
Qed.

(** X30.  In reconciliation mode with a reconciler, draining and then
    escalating hands the reconciler every queued snapshot followed by
    every newly finished unverified one, each once and in order, and
    leaves the queue empty; [reconcile_failed] raises only when a
    snapshot is queued and there is no reconciler. *)
Theorem clean_then_reconcile_failed (self : verifier)
    (calls : list InstanceExists.t) :
  reconcile self = true →
  reconciler self = Some calls →
  reconcile_failed (clean_results self).1
  = Ok (mkVerifier true
          (List.filter (λ r, negb (ready r)) (results self)) []
          (Some (calls ++ failed self ++ (results self ≫= unverified))%list)).
Proof.
  intros Hmode Hrec. rewrite clean_results_unfold.
  unfold reconcile_failed. simpl. rewrite Hmode, Hrec.
  generalize (failed self ++ (results self ≫= unverified))%list.
  intros queued.
  assert (Heach : ∀ q c, failed_validation_each (Some c) q
                         = Ok (Some (c ++ q)%list)).
  { induction q as [|x q IH]; intros c; simpl.
    - by rewrite app_nil_r.
    - rewrite IH. by rewrite <- app_assoc. }
  by rewrite Heach, bind_Ok.
Qed.

Lemma clean_then_reconcile_failed_witness :
  reconcile_failed
    (clean_results
       (mkVerifier true
          [Ready (Ok (false, Sample.snapshot None)); NotReady;
           Ready (Raise (OtherException "IOError"));
           Ready (Ok (true, Sample.snapshot (Some Sample.D)))]
          [] (Some []))).1
  = Ok (mkVerifier true [NotReady] [] (Some [Sample.snapshot None])).
Proof.
  exact (clean_then_reconcile_failed
           (mkVerifier true
              [Ready (Ok (false, Sample.snapshot None)); NotReady;
               Ready (Raise (OtherException "IOError"));
               Ready (Ok (true, Sample.snapshot (Some Sample.D)))]
              [] (Some []))
           [] eq_refl eq_refl).
Defined.

Example reconcile_failed_without_reconciler :
  reconcile_failed (mkVerifier true [] [Sample.snapshot None] None)
  = Raise (OtherException "AttributeError")
  ∧ reconcile_failed (mkVerifier false [NotReady] [] None)
    = Ok (mkVerifier false [NotReady] [] None).
Proof. split; reflexivity. Qed.

Example clean_results_sample :
  (clean_results
     (mkVerifier false
        [Ready (Ok (false, Sample.snapshot None)); NotReady;
         Ready (Raise (OtherException "IOError"));
         Ready (Ok (true, Sample.snapshot (Some Sample.D)))]
        [] None)).2
  = (1%nat, 2%nat, 1%nat).
Proof. reflexivity. Qed.

(** ** The two engines *)

Lemma unreliable_save_succeeds (exist : InstanceExists.t)
    (w : Unreliable.World) :
  writes_succeed w →
  ∃ rest,
    Unreliable.save exist w
    = (Unreliable.mkWorld (save exist (Unreliable.store w)) rest, Ok ()).
Proof.
  intros Hok.
  destruct (unreliable_save_view exist w)
    as [(rest & Hsave & _) | (c & rest & Hw & _)]; [by exists rest|].
  destruct (Hok c). rewrite Hw. by left.
Qed.

Lemma unreliable_mark_failed_succeeds (exist : InstanceExists.t)
    (reason : option string) (w : Unreliable.World) :
  writes_succeed w →
  ∃ rest,
    Unreliable._mark_exist_failed exist reason w
    = (Unreliable.mkWorld
         (_mark_exist_failed exist reason (Unreliable.store w)).1 rest,
       (_mark_exist_failed exist reason (Unreliable.store w)).2, Ok ()).
Proof.
  intros Hok. unfold Unreliable._mark_exist_failed, _mark_exist_failed.
  destruct reason as [text|]; [destruct (String.eqb text "")|];
    match goal with |- context [Unreliable.save ?e w] =>
      destruct (unreliable_save_succeeds e w Hok) as [rest ->]
    end; by exists rest.
Qed.

(** X32.  When every save succeeds, [_verify] on the store whose writes
    may fail leaves the same store and returns the same result as the
    engine whose saves always succeed: what is proved of the latter
    holds of every run in which no save raises. *)
Theorem unreliable_agrees_when_saved (exn_str : exn → string)
    (exist : InstanceExists.t) (w : Unreliable.World) :
  writes_succeed w →
  Unreliable.store (Unreliable._verify exn_str exist w).1
  = (_verify exn_str exist (Unreliable.store w)).1
  ∧ (Unreliable._verify exn_str exist w).2
    = (_verify exn_str exist (Unreliable.store w)).2.
Proof.
  intros Hok. rewrite verify_unfold. unfold Unreliable._verify.
  destruct (fast_path_checks (Unreliable.store w) exist) as [[]|e].
  - unfold Unreliable._mark_exist_verified. simpl negb. cbv iota.
    destruct (unreliable_save_succeeds
                (InstanceExists.set_status VERIFIED exist) w Hok)
      as [rest ->].
    done.
  - destruct (is_VerificationException e).
    + unfold Unreliable._attempt_reconciled_verify.
      destruct (_verify_with_reconciled_data (Unreliable.store w) exist e)
        as [[]|rec_e] eqn:Hrec.
      * rewrite (attempt_reconciled_verify_success exn_str _ _ _ Hrec).
        unfold Unreliable._mark_exist_verified. simpl negb. cbv iota.
        destruct (unreliable_save_succeeds
                    (InstanceExists.set_status VERIFIED exist) w Hok)
          as [rest ->].
        done.
      * destruct (attempt_reconciled_verify_failure exn_str _ _ _ _ Hrec)
          as (exist' & Hmark & ->).
        destruct (unreliable_mark_failed_succeeds exist
                    (Some (if is_NotFound rec_e then exn_str e
                           else if is_VerificationException rec_e
                                then exn_str rec_e
                           else class_name_of rec_e)) w Hok)
          as [rest ->].
        rewrite Hmark. done.
    + destruct (unreliable_mark_failed_succeeds exist
                  (Some (class_name_of e)) w Hok) as [rest ->].
      by destruct (_mark_exist_failed exist (Some (class_name_of e))
                     (Unreliable.store w)).
Qed.

Lemma unreliable_agrees_when_saved_witness :
  Unreliable.store
    (Unreliable._verify Sample.message (Sample.snapshot None)
       (Unreliable.mkWorld (Sample.db [Sample.usage_row "tenantB"] [] [])
          [None])).1
  = (_verify Sample.message (Sample.snapshot None)
       (Sample.db [Sample.usage_row "tenantB"] [] [])).1
  ∧ (Unreliable._verify Sample.message (Sample.snapshot None)
       (Unreliable.mkWorld (Sample.db [Sample.usage_row "tenantB"] [] [])
          [None])).2
    = (_verify Sample.message (Sample.snapshot None)
         (Sample.db [Sample.usage_row "tenantB"] [] [])).2.
Proof.
  apply (unreliable_agrees_when_saved Sample.message (Sample.snapshot None)
           (Unreliable.mkWorld (Sample.db [Sample.usage_row "tenantB"] [] [])
              [None])).
  intros c [[=] | []].
Defined.
